(** * FARM-AI chat widget (src/chatbot.tsx): a shallow embedding

    The widget is a React function component.  Its state (visibility flag,
    transcript, four optional numeric inputs) is modelled as a record, its
    event handlers as functions on that record, and the single asynchronous
    exchange with the recommendation service as an event carrying the
    outcome of the [fetch] promise chain.

    The handlers lean on the JavaScript runtime: numbers are IEEE 754
    binary64 values, template literals and [JSON.stringify] print them with
    the shortest round-trip digits, [toFixed] rounds them to a fixed number
    of decimals, and the response payload has type [any].  Module [JS]
    embeds those parts of ECMAScript that the component exercises. *)

From Stdlib Require Import ZArith List Bool Ascii String Lia.
From Stdlib Require Import DecimalString.
From Stdlib Require Import Floats.SpecFloat.
Import ListNotations.

Open Scope Z_scope.

(* ================================================================== *)
(** * The JavaScript runtime used by the component *)
(* ================================================================== *)

Module JS.

(** ** Strings: sequences of UTF-16 code units *)

Definition code_unit := N.
Definition jsstring := list code_unit.

(** A source literal made of ASCII characters. *)
Fixpoint str (s : string) : jsstring :=
  match s with
  | EmptyString => []
  | String c r => N_of_ascii c :: str r
  end.

Fixpoint jsstring_eqb (a b : jsstring) : bool :=
  match a, b with
  | [], [] => true
  | x :: a', y :: b' => N.eqb x y && jsstring_eqb a' b'
  | _, _ => false
  end.

Fixpoint is_prefix (p s : jsstring) : bool :=
  match p, s with
  | [], _ => true
  | x :: p', y :: s' => N.eqb x y && is_prefix p' s'
  | _ :: _, [] => false
  end.

(** [String.prototype.includes]. *)
Fixpoint includes (s p : jsstring) : bool :=
  is_prefix p s ||
  match s with
  | [] => false
  | _ :: s' => includes s' p
  end.

(** [Array.prototype.join]. *)
Fixpoint join (sep : jsstring) (l : list jsstring) : jsstring :=
  match l with
  | [] => []
  | [x] => x
  | x :: r => x ++ sep ++ join sep r
  end.

(** [s.replace(/c/g, by)] for a one-character pattern. *)
Fixpoint replace_all (c : code_unit) (by_ : jsstring) (s : jsstring) : jsstring :=
  match s with
  | [] => []
  | x :: r => (if N.eqb x c then by_ else [x]) ++ replace_all c by_ r
  end.

(** [s.split(c)] for a one-character separator. *)
Fixpoint split_on (c : code_unit) (s : jsstring) : list jsstring :=
  match s with
  | [] => [[]]
  | x :: r =>
      if N.eqb x c then [] :: split_on c r
      else match split_on c r with
           | [] => [[x]]
           | h :: t => (x :: h) :: t
           end
  end.

(** ** Numbers: IEEE 754 binary64 *)

Definition number := spec_float.

Definition prec : Z := 53.
Definition emax : Z := 1024.

Definition NaN : number := S754_nan.
Definition Infinity : number := S754_infinity false.

(** The global [isNaN] applied to a number. *)
Definition isNaN (x : number) : bool :=
  match x with
  | S754_nan => true
  | _ => false
  end.

(** [Number.isFinite]. *)
Definition isFinite (x : number) : bool :=
  match x with
  | S754_zero _ | S754_finite _ _ _ => true
  | _ => false
  end.

(** The binary64 value nearest to the rational [p/q] (ties to even). *)
Definition num_of_ratio (neg : bool) (p q : positive) : number :=
  let '(mz, ez, lz) := SFdiv_core_binary prec emax (Zpos p) 0 (Zpos q) 0 in
  binary_round_aux prec emax neg mz ez lz.

(** The binary64 value nearest to [m * 10^e], as a literal denotes it. *)
Definition num_of_decimal (neg : bool) (m : Z) (e : Z) : number :=
  match m with
  | Zpos p =>
      if 0 <=? e then num_of_ratio neg (p * Z.to_pos (10 ^ e)) 1
      else num_of_ratio neg p (Z.to_pos (10 ^ (- e)))
  | _ => S754_zero neg
  end.

Definition num_of_Z (z : Z) : number :=
  binary_normalize prec emax z 0 false.

(** The operator [*] on numbers. *)
Definition mul (x y : number) : number := SFmul prec emax x y.

(** The relation [x > 0] on numbers; false when [x] is NaN. *)
Definition gt_zero (x : number) : bool :=
  match x with
  | S754_infinity false | S754_finite false _ _ => true
  | _ => false
  end.

(** Decimal digits of a natural number. *)
Definition digits (z : Z) : jsstring :=
  str (NilZero.string_of_uint (N.to_uint (Z.to_N z))).

Definition zeros (n : nat) : jsstring := repeat 48%N n.

(** *** Number::toString (radix 10)

    For a positive finite [x = m * 2^e] the standard asks for integers
    [n], [k], [s] with [k >= 1], [10^(k-1) <= s < 10^k], the binary64 value
    of [s * 10^(n-k)] being [x], and [k] as small as possible; among several
    [s] the one nearest to [x] is taken (the even one on a tie). *)

(** [x = xp/xq]; is [x < 10^n]? *)
Definition lt_pow10 (xp xq : Z) (n : Z) : bool :=
  if 0 <=? n then xp <? xq * 10 ^ n else xp * 10 ^ (- n) <? xq.

(** The least [n >= from] with [x < 10^n]. *)
Fixpoint magnitude (fuel : nat) (xp xq : Z) (from : Z) : Z :=
  match fuel with
  | O => from
  | S f => if lt_pow10 xp xq from then from else magnitude f xp xq (from + 1)
  end.

(** Does the decimal [s * 10^e] denote the number [x]? *)
Definition denotes (s e : Z) (x : number) : bool :=
  match num_of_decimal false s e, x with
  | S754_finite false m1 e1, S754_finite false m2 e2 =>
      Pos.eqb m1 m2 && Z.eqb e1 e2
  | _, _ => false
  end.

(** Try [k], [k+1], ... digits; the result is [(s, n)].  Seventeen digits
    always identify a binary64 value, so the fuel never runs out on one. *)
Fixpoint shortest (fuel : nat) (x : number) (xp xq : Z) (n0 : Z) (k : Z)
  : Z * Z :=
  match fuel with
  | O => (0, 0)
  | S f =>
      let e := n0 - k in
      (* t = x / 10^e = tp / tq *)
      let tp := if 0 <=? e then xp else xp * 10 ^ (- e) in
      let tq := if 0 <=? e then xq * 10 ^ e else xq in
      let lo := tp / tq in
      let hi := lo + 1 in
      let pick (s : Z) :=
        if s =? 10 ^ k then (10 ^ (k - 1), n0 + 1) else (s, n0) in
      match denotes lo e x, denotes hi e x with
      | true, true =>
          match (2 * tp) ?= (lo + hi) * tq with
          | Lt => pick lo
          | Gt => pick hi
          | Eq => if Z.even lo then pick lo else pick hi
          end
      | true, false => pick lo
      | false, true => pick hi
      | false, false => shortest f x xp xq n0 (k + 1)
      end
  end.

Definition exponent_part (n : Z) : jsstring :=
  str "e" ++ (if 0 <=? n - 1 then str "+" else str "-") ++ digits (Z.abs (n - 1)).

Definition format_digits (s n : Z) : jsstring :=
  let ds := digits s in
  let k := Z.of_nat (List.length ds) in
  if (k <=? n) && (n <=? 21) then
    ds ++ zeros (Z.to_nat (n - k))
  else if (0 <? n) && (n <=? 21) then
    firstn (Z.to_nat n) ds ++ str "." ++ skipn (Z.to_nat n) ds
  else if (-6 <? n) && (n <=? 0) then
    str "0." ++ zeros (Z.to_nat (- n)) ++ ds
  else if k =? 1 then
    ds ++ exponent_part n
  else
    firstn 1 ds ++ str "." ++ skipn 1 ds ++ exponent_part n.

Definition Number_toString (x : number) : jsstring :=
  match x with
  | S754_nan => str "NaN"
  | S754_zero _ => str "0"
  | S754_infinity neg => (if neg then str "-" else []) ++ str "Infinity"
  | S754_finite neg m e =>
      let xp := if 0 <=? e then Zpos m * 2 ^ e else Zpos m in
      let xq := if 0 <=? e then 1 else 2 ^ (- e) in
      let n0 := magnitude 640 xp xq (-324) in
      let '(s, n) := shortest 20 (S754_finite false m e) xp xq n0 1 in
      (if neg then str "-" else []) ++ format_digits s n
  end.

(** *** Number.prototype.toFixed: the digits, for [0 <= f <= 100]

    Outside that range the method throws a RangeError; [call_toFixed]
    below raises it. *)

Definition toFixed (x : number) (f : nat) : jsstring :=
  match x with
  | S754_nan | S754_infinity _ => Number_toString x
  | S754_zero _ => str "0" ++ (if Nat.eqb f 0 then [] else str "." ++ zeros f)
  | S754_finite neg m e =>
      let xp := if 0 <=? e then Zpos m * 2 ^ e else Zpos m in
      let xq := if 0 <=? e then 1 else 2 ^ (- e) in
      if xq * 10 ^ 21 <=? xp then Number_toString x
      else
        let scale := 10 ^ Z.of_nat f in
        (* the integer nearest to x * 10^f, the larger one on a tie *)
        let n := (2 * xp * scale + xq) / (2 * xq) in
        let m0 := digits n in
        let m1 := zeros (S f - List.length m0) ++ m0 in
        let k := List.length m1 in
        (if neg then str "-" else []) ++
        (if Nat.eqb f 0 then m0
         else firstn (k - f) m1 ++ str "." ++ skipn (k - f) m1)
  end.

(** ** Reading numbers from strings *)

(** WhiteSpace and LineTerminator code points (StrWhiteSpaceChar). *)
Definition is_whitespace (c : code_unit) : bool :=
  existsb (N.eqb c)
    [9; 10; 11; 12; 13; 32; 160; 5760; 8232; 8233; 8239; 8287; 12288; 65279]%N
  || ((8192 <=? c) && (c <=? 8202))%N.

Fixpoint trim_start (s : jsstring) : jsstring :=
  match s with
  | c :: r => if is_whitespace c then trim_start r else s
  | [] => []
  end.

Definition trim (s : jsstring) : jsstring :=
  rev (trim_start (rev (trim_start s))).

Definition is_digit (c : code_unit) : bool := ((48 <=? c) && (c <=? 57))%N.

(** The longest run of decimal digits at the head of [s], and the rest. *)
Fixpoint span_digits (s : jsstring) : jsstring * jsstring :=
  match s with
  | c :: r =>
      if is_digit c then let '(d, t) := span_digits r in (c :: d, t)
      else ([], s)
  | [] => ([], [])
  end.

(** The value of a digit of radix up to 16, if it is one. *)
Definition digit_value (c : code_unit) : option Z :=
  if is_digit c then Some (Z.of_N c - 48)
  else if ((97 <=? c) && (c <=? 102))%N then Some (Z.of_N c - 87)
  else if ((65 <=? c) && (c <=? 70))%N then Some (Z.of_N c - 55)
  else None.

(** The integer written by the digits [ds] in [radix]; [None] when a
    character is not a digit of that radix. *)
Fixpoint radix_value (radix : Z) (acc : Z) (ds : jsstring) : option Z :=
  match ds with
  | [] => Some acc
  | c :: r =>
      match digit_value c with
      | Some d => if d <? radix then radix_value radix (radix * acc + d) r else None
      | None => None
      end
  end.

Definition decimal_value (ds : jsstring) : Z :=
  match radix_value 10 0 ds with
  | Some z => z
  | None => 0
  end.

Definition take_sign (s : jsstring) : bool * jsstring :=
  match s with
  | 43%N :: r => (false, r)
  | 45%N :: r => (true, r)
  | _ => (false, s)
  end.

(** ExponentPart, when one follows; otherwise nothing is consumed. *)
Definition take_exponent (s : jsstring) : Z * jsstring :=
  match s with
  | c :: r =>
      if N.eqb c 101 || N.eqb c 69 then
        let '(neg, r1) := take_sign r in
        let '(ds, r2) := span_digits r1 in
        match ds with
        | [] => (0, s)
        | _ => ((if neg then - decimal_value ds else decimal_value ds), r2)
        end
      else (0, s)
  | [] => (0, s)
  end.

(** The longest prefix of [s] that is a StrUnsignedDecimalLiteral other
    than [Infinity], as mantissa and decimal exponent, and the rest. *)
Definition take_unsigned_decimal (s : jsstring) : option (Z * Z * jsstring) :=
  let '(ip, r1) := span_digits s in
  let '(fp, r2) :=
    match r1 with
    | 46%N :: r => span_digits r
    | _ => ([], r1)
    end in
  match ip, fp with
  | [], [] => None
  | _, _ =>
      let '(e, r3) := take_exponent r2 in
      Some (decimal_value (ip ++ fp), e - Z.of_nat (List.length fp), r3)
  end.

(** The longest prefix of [s] that is a StrDecimalLiteral, as the number
    it denotes, and the rest. *)
Definition take_StrDecimalLiteral (s : jsstring) : option (number * jsstring) :=
  let '(neg, r) := take_sign s in
  if is_prefix (str "Infinity") r then Some (S754_infinity neg, skipn 8 r)
  else
    match take_unsigned_decimal r with
    | Some (m, e, rest) => Some (num_of_decimal neg m e, rest)
    | None => None
    end.

(** The global [parseFloat] applied to a string. *)
Definition parseFloat (s : jsstring) : number :=
  match take_StrDecimalLiteral (trim_start s) with
  | Some (x, _) => x
  | None => NaN
  end.

(** NonDecimalIntegerLiteral: [0x], [0o] and [0b] forms. *)
Definition non_decimal (s : jsstring) : option number :=
  match s with
  | 48%N :: c :: (_ :: _) as ds =>
      let radix :=
        if N.eqb c 120 || N.eqb c 88 then Some 16
        else if N.eqb c 111 || N.eqb c 79 then Some 8
        else if N.eqb c 98 || N.eqb c 66 then Some 2
        else None in
      match radix with
      | Some r =>
          match radix_value r 0 ds with
          | Some z => Some (num_of_Z z)
          | None => None
          end
      | None => None
      end
  | _ => None
  end.

(** StringToNumber. *)
Definition StringToNumber (s : jsstring) : number :=
  match trim s with
  | [] => S754_zero false
  | t =>
      match non_decimal t with
      | Some x => x
      | None =>
          match take_StrDecimalLiteral t with
          | Some (x, []) => x
          | _ => NaN
          end
      end
  end.

(** ** Values of type [any] and thrown errors *)

#[local] Set Warnings "-register-all".

Inductive value : Type :=
  | VUndefined
  | VNull
  | VBool (b : bool)
  | VNum (x : number)
  | VStr (s : jsstring)
  | VArr (elems : list value)
  | VObj (props : list (jsstring * value)).

(** An [Error] object; only its [message] is ever read. *)
Record JsError : Type := Error { message : jsstring }.

(** A TypeError raised by the engine.  The wording of its message is left
    to the implementation; the texts used below are V8's. *)
Definition TypeError (msg : string) : JsError := Error (str msg).

(** The outcome of evaluating an expression or a call. *)
Inductive completion (A : Type) : Type :=
  | Normal (a : A)
  | Throw (e : JsError).
Arguments Normal {A} a.
Arguments Throw {A} e.

Definition bind {A B} (c : completion A) (k : A -> completion B) : completion B :=
  match c with
  | Normal a => k a
  | Throw e => Throw e
  end.

Notation "x <- c ;; k" := (bind c (fun x => k))
  (at level 61, c at next level, right associativity).

Definition throws {A} (c : completion A) : bool :=
  match c with
  | Throw _ => true
  | Normal _ => false
  end.

(** An object's own property; [undefined] when it has none of that name.
    A property list holds each name once, in enumeration order. *)
Fixpoint get_own (props : list (jsstring * value)) (key : jsstring) : value :=
  match props with
  | [] => VUndefined
  | (k, v) :: r => if jsstring_eqb k key then v else get_own r key
  end.

Definition has_own (props : list (jsstring * value)) (key : jsstring) : bool :=
  existsb (fun kv => jsstring_eqb (fst kv) key) props.

(** Property read [v.key] for a [key] that no built-in prototype defines
    ([length] of arrays and strings is an own property). *)
Definition Get (v : value) (key : jsstring) : completion value :=
  match v with
  | VUndefined =>
      Throw (Error (str "Cannot read properties of undefined (reading '"
                    ++ key ++ str "')"))
  | VNull =>
      Throw (Error (str "Cannot read properties of null (reading '"
                    ++ key ++ str "')"))
  | VObj props => Normal (get_own props key)
  | VArr elems =>
      Normal (if jsstring_eqb key (str "length")
              then VNum (num_of_Z (Z.of_nat (List.length elems)))
              else VUndefined)
  | VStr s =>
      Normal (if jsstring_eqb key (str "length")
              then VNum (num_of_Z (Z.of_nat (List.length s)))
              else VUndefined)
  | VBool _ | VNum _ => Normal VUndefined
  end.

Definition ToBoolean (v : value) : bool :=
  match v with
  | VUndefined | VNull => false
  | VBool b => b
  | VNum (S754_zero _) | VNum S754_nan => false
  | VNum _ => true
  | VStr [] => false
  | VStr _ => true
  | VArr _ | VObj _ => true
  end.

(** ToString.  An array prints its elements joined by commas, [null] and
    [undefined] elements as nothing.  A plain object prints as
    [[object Object]] through [Object.prototype.toString]; when it carries
    an own (data, hence not callable) property [toString], no method yields
    a primitive and the conversion throws. *)
Fixpoint ToString (v : value) : completion jsstring :=
  match v with
  | VUndefined => Normal (str "undefined")
  | VNull => Normal (str "null")
  | VBool b => Normal (if b then str "true" else str "false")
  | VNum x => Normal (Number_toString x)
  | VStr s => Normal s
  | VArr elems =>
      let fix each (l : list value) : completion (list jsstring) :=
        match l with
        | [] => Normal []
        | e :: r =>
            s <- match e with
                 | VUndefined | VNull => Normal []
                 | _ => ToString e
                 end ;;
            t <- each r ;;
            Normal (s :: t)
        end in
      l <- each elems ;;
      Normal (join (str ",") l)
  | VObj props =>
      if has_own props (str "toString")
      then Throw (TypeError "Cannot convert object to primitive value")
      else Normal (str "[object Object]")
  end.

(** ToNumber; arrays and objects go through their string form. *)
Definition ToNumber (v : value) : completion number :=
  match v with
  | VUndefined => Normal NaN
  | VNull => Normal (S754_zero false)
  | VBool b => Normal (if b then num_of_Z 1 else S754_zero false)
  | VNum x => Normal x
  | VStr s => Normal (StringToNumber s)
  | VArr _ | VObj _ => s <- ToString v ;; Normal (StringToNumber s)
  end.

(** The method call [v.toFixed(f)], where [callee] is the source text of
    [v.toFixed]: only numbers have the method, and it throws a RangeError
    for more than 100 digits. *)
Definition call_toFixed (callee : string) (v : value) (f : nat)
  : completion jsstring :=
  match v with
  | VNum x =>
      if Nat.leb f 100 then Normal (toFixed x f)
      else Throw (Error (str "toFixed() digits argument must be between 0 and 100"))
  | VUndefined =>
      Throw (TypeError "Cannot read properties of undefined (reading 'toFixed')")
  | VNull =>
      Throw (TypeError "Cannot read properties of null (reading 'toFixed')")
  | _ => Throw (Error (str callee ++ str " is not a function"))
  end.

(** ** JSON.stringify *)

Definition hex_digit (n : N) : code_unit :=
  (if n <? 10 then 48 + n else 87 + n)%N.

Definition unicode_escape (c : code_unit) : jsstring :=
  str "\u" ++ [hex_digit (c / 4096 mod 16); hex_digit (c / 256 mod 16);
               hex_digit (c / 16 mod 16); hex_digit (c mod 16)]%N.

Definition is_lead (c : code_unit) : bool := ((55296 <=? c) && (c <=? 56319))%N.
Definition is_trail (c : code_unit) : bool := ((56320 <=? c) && (c <=? 57343))%N.

Fixpoint quote_chars (s : jsstring) : jsstring :=
  match s with
  | [] => []
  | c :: r =>
      if N.eqb c 8 then str "\b" ++ quote_chars r
      else if N.eqb c 9 then str "\t" ++ quote_chars r
      else if N.eqb c 10 then str "\n" ++ quote_chars r
      else if N.eqb c 12 then str "\f" ++ quote_chars r
      else if N.eqb c 13 then str "\r" ++ quote_chars r
      else if N.eqb c 34 then [92; 34]%N ++ quote_chars r
      else if N.eqb c 92 then [92; 92]%N ++ quote_chars r
      else if (c <? 32)%N then unicode_escape c ++ quote_chars r
      else if is_lead c then
        match r with
        | d :: r' =>
            if is_trail d then c :: d :: quote_chars r'
            else unicode_escape c ++ quote_chars r
        | [] => unicode_escape c
        end
      else if is_trail c then unicode_escape c ++ quote_chars r
      else c :: quote_chars r
  end.

Definition QuoteJSONString (s : jsstring) : jsstring :=
  [34%N] ++ quote_chars s ++ [34%N].

(** SerializeJSONProperty without replacer or indentation; [None] stands
    for [undefined]. *)
Fixpoint JSON_stringify (v : value) : option jsstring :=
  match v with
  | VUndefined => None
  | VNull => Some (str "null")
  | VBool b => Some (if b then str "true" else str "false")
  | VNum x => Some (if isFinite x then Number_toString x else str "null")
  | VStr s => Some (QuoteJSONString s)
  | VArr elems =>
      let fix each (l : list value) : list jsstring :=
        match l with
        | [] => []
        | e :: r =>
            match JSON_stringify e with
            | Some s => s
            | None => str "null"
            end :: each r
        end in
      Some (str "[" ++ join (str ",") (each elems) ++ str "]")
  | VObj props =>
      let fix each (l : list (jsstring * value)) : list jsstring :=
        match l with
        | [] => []
        | (k, e) :: r =>
            match JSON_stringify e with
            | Some s => (QuoteJSONString k ++ str ":" ++ s) :: each r
            | None => each r
            end
        end in
      Some (str "{" ++ join (str ",") (each props) ++ str "}")
  end.

End JS.

(* ================================================================== *)
(** * The component [Chatbot] *)
(* ================================================================== *)

Module Chatbot.
Import JS.

(** ** State *)

Inductive Sender : Type := user | bot.

Record Message : Type := { sender : Sender; text : jsstring }.

(** The six [useState] cells of the component. *)
Record State : Type := {
  isVisible : bool;
  messages : list Message;
  soilpH : option number;
  soilMoisture : option number;
  temperatureC : option number;
  rainfallMm : option number
}.

Definition welcome : jsstring :=
  str "Welcome to the Farm AI Chatbot! Please enter the following information to get crop recommendations:".

Definition initial : State :=
  {| isVisible := false;
     messages := [ {| sender := bot; text := welcome |} ];
     soilpH := None;
     soilMoisture := None;
     temperatureC := None;
     rainfallMm := None |}.

Definition requiredFields : list jsstring :=
  [str "Soil_pH"; str "Soil_Moisture"; str "Temperature_C"; str "Rainfall_mm"].

(** The state setters; [setIsVisible] and [setMessages] are always called
    with an updater function of the previous value. *)
Definition setIsVisible (f : bool -> bool) (st : State) : State :=
  {| isVisible := f (isVisible st); messages := messages st;
     soilpH := soilpH st; soilMoisture := soilMoisture st;
     temperatureC := temperatureC st; rainfallMm := rainfallMm st |}.

Definition setMessages (f : list Message -> list Message) (st : State) : State :=
  {| isVisible := isVisible st; messages := f (messages st);
     soilpH := soilpH st; soilMoisture := soilMoisture st;
     temperatureC := temperatureC st; rainfallMm := rainfallMm st |}.

Definition setSoilpH (v : option number) (st : State) : State :=
  {| isVisible := isVisible st; messages := messages st;
     soilpH := v; soilMoisture := soilMoisture st;
     temperatureC := temperatureC st; rainfallMm := rainfallMm st |}.

Definition setSoilMoisture (v : option number) (st : State) : State :=
  {| isVisible := isVisible st; messages := messages st;
     soilpH := soilpH st; soilMoisture := v;
     temperatureC := temperatureC st; rainfallMm := rainfallMm st |}.

Definition setTemperatureC (v : option number) (st : State) : State :=
  {| isVisible := isVisible st; messages := messages st;
     soilpH := soilpH st; soilMoisture := soilMoisture st;
     temperatureC := v; rainfallMm := rainfallMm st |}.

Definition setRainfallMm (v : option number) (st : State) : State :=
  {| isVisible := isVisible st; messages := messages st;
     soilpH := soilpH st; soilMoisture := soilMoisture st;
     temperatureC := temperatureC st; rainfallMm := v |}.

(** The four input fields, in the order of [requiredFields]. *)
Definition inputs (st : State) : list (option number) :=
  [soilpH st; soilMoisture st; temperatureC st; rainfallMm st].

(** ** toggleChatbot *)

Definition toggleChatbot (st : State) : State :=
  setIsVisible negb st.

(** ** handleGetRecommendations *)

(** An object of type [FarmInputs]: values are [number | null]. *)
Definition FarmInputs := list (jsstring * option number).

(** [farmInputs[field]].  A name that is no key would read [undefined],
    which fails the check below just as [null] does. *)
Fixpoint index (farmInputs : FarmInputs) (field : jsstring) : option number :=
  match farmInputs with
  | [] => None
  | (k, v) :: r => if jsstring_eqb k field then v else index r field
  end.

(** [farmInputs[field] !== null && !isNaN(farmInputs[field] as number)] *)
Definition filled (farmInputs : FarmInputs) (field : jsstring) : bool :=
  match index farmInputs field with
  | None => false
  | Some x => negb (isNaN x)
  end.

(** [farmInputs[field] === null || isNaN(farmInputs[field] as number)] *)
Definition missing (farmInputs : FarmInputs) (field : jsstring) : bool :=
  match index farmInputs field with
  | None => true
  | Some x => isNaN x
  end.

(** A substitution [${v}] of a [number | null] in a template literal. *)
Definition subst (v : option number) : jsstring :=
  match v with
  | None => str "null"
  | Some x => Number_toString x
  end.

(** The runtime value of a [number | null]. *)
Definition of_input (v : option number) : value :=
  match v with
  | None => VNull
  | Some x => VNum x
  end.

(** U+00B0 DEGREE SIGN *)
Definition degree : jsstring := [176%N].

Definition fetching : Message :=
  {| sender := bot; text := str "Fetching recommendations..." |}.

(** The handler returns the next state and, when it calls
    [sendDataToBackend], the argument [dataToSend] of that call.  It reads
    the four fields as of the last rendering, which is the state the click
    finds. *)
Definition handleGetRecommendations (st : State)
  : State * option (list (jsstring * value)) :=
  let farmInputs : FarmInputs :=
    [ (str "Soil_pH", soilpH st);
      (str "Soil_Moisture", soilMoisture st);
      (str "Temperature_C", temperatureC st);
      (str "Rainfall_mm", rainfallMm st) ] in
  let allFieldsFilled := forallb (filled farmInputs) requiredFields in
  if allFieldsFilled then
    let userInputSummary :=
      str "My farm data: pH: " ++ subst (soilpH st) ++
      str ", Moisture: " ++ subst (soilMoisture st) ++
      str ", Temperature: " ++ subst (temperatureC st) ++ degree ++
      str "C, Rainfall: " ++ subst (rainfallMm st) ++ str "mm" in
    let st' :=
      setMessages (fun prevMessages =>
        prevMessages ++ [ {| sender := user; text := userInputSummary |};
                          fetching ]) st in
    let dataToSend :=
      map (fun '(key, value) => (key, of_input value)) farmInputs in
    (st', Some dataToSend)
  else
    let missingFields :=
      replace_all 95%N (str " ")
        (join (str ", ") (filter (missing farmInputs) requiredFields)) in
    (setMessages (fun prevMessages =>
       prevMessages ++
       [ {| sender := bot;
            text := str "Please enter valid values for: " ++ missingFields
                    ++ str "." |} ]) st,
     None).

(** ** sendDataToBackend: the request *)

Record Request : Type := {
  url : jsstring;
  method : jsstring;
  headers : list (jsstring * jsstring);
  body : option jsstring
}.

(** The object handed to [JSON.stringify]. *)
Definition requestObject (dataToSend : list (jsstring * value)) : value :=
  let farmInputsData :=
    VObj [ (str "Soil_pH", get_own dataToSend (str "Soil_pH"));
           (str "Soil_Moisture", get_own dataToSend (str "Soil_Moisture")) ] in
  let weatherForecastData :=
    VObj [ (str "Temperature_C", get_own dataToSend (str "Temperature_C"));
           (str "Rainfall_mm", get_own dataToSend (str "Rainfall_mm")) ] in
  VObj [ (str "farmInputs", farmInputsData);
         (str "weatherForecast", weatherForecastData) ].

(** The [fetch] call issued by [sendDataToBackend]. *)
Definition sendDataToBackend (dataToSend : list (jsstring * value)) : Request :=
  let requestBody := JSON_stringify (requestObject dataToSend) in
  {| url := str "http://127.0.0.1:5000/get_crop_recommendations";
     method := str "POST";
     headers := [ (str "Content-Type", str "application/json") ];
     body := requestBody |}.

(** ** displayRecommendations *)

Definition noRecommendations : Message :=
  {| sender := bot;
     text := str "No recommendations found for the provided data." |}.

Definition LF : jsstring := [10%N].

(** The indentation of the three inner lines: U+0020 SPACE followed by
    U+00A0 NO-BREAK SPACE, as the template literals have it. *)
Definition indent : jsstring := [32%N; 160%N].

(** The body of the [forEach] callback: the new [responseText]. *)
Definition appendRecommendation (responseText : jsstring) (rec : value)
  (index : nat) : completion jsstring :=
  let rank := Number_toString (num_of_Z (Z.of_nat index + 1)) in
  crop <- Get rec (str "Crop") ;;
  crop <- ToString crop ;;
  roi <- Get rec (str "Estimated_ROI_Percentage") ;;
  roi <- call_toFixed "rec.Estimated_ROI_Percentage.toFixed" roi 1 ;;
  let responseText :=
    responseText ++ rank ++ str ". " ++ crop ++ str " - " ++ roi
    ++ str "% ROI" ++ LF in
  yield <- Get rec (str "Predicted_Yield") ;;
  yield <- call_toFixed "rec.Predicted_Yield.toFixed" yield 1 ;;
  price <- Get rec (str "Predicted_Price") ;;
  price <- call_toFixed "rec.Predicted_Price.toFixed" price 2 ;;
  profit <- Get rec (str "Estimated_Profit") ;;
  profit <- call_toFixed "rec.Estimated_Profit.toFixed" profit 2 ;;
  let responseText :=
    responseText ++ indent ++ str "Yield: " ++ yield ++ str " tons | Price: $"
    ++ price
    ++ str " | Profit: $" ++ profit ++ LF in
  risk <- Get rec (str "Pest_Risk_Score") ;;
  risk <- ToNumber risk ;;
  risk <- call_toFixed "(rec.Pest_Risk_Score * 100).toFixed"
            (VNum (mul risk (num_of_Z 100))) 1 ;;
  let responseText :=
    responseText ++ indent ++ str "Pest Risk: " ++ risk ++ str "%" ++ LF in
  explanation <- Get rec (str "Explanation") ;;
  explanation <- ToString explanation ;;
  Normal (responseText ++ indent ++ str "Summary: " ++ explanation ++ LF ++ LF).

(** [Array.prototype.forEach] with that callback, from [index] on. *)
Fixpoint forEach (elems : list value) (index : nat) (responseText : jsstring)
  : completion jsstring :=
  match elems with
  | [] => Normal responseText
  | rec :: rest =>
      responseText <- appendRecommendation responseText rec index ;;
      forEach rest (S index) responseText
  end.

(** [data && data.recommendations && data.recommendations.length > 0] *)
Definition hasRecommendations (data : value) : completion bool :=
  if ToBoolean data then
    recommendations <- Get data (str "recommendations") ;;
    if ToBoolean recommendations then
      length <- Get recommendations (str "length") ;;
      length <- ToNumber length ;;
      Normal (gt_zero length)
    else Normal false
  else Normal false.

Definition displayRecommendations (data : value) (st : State)
  : completion State :=
  cond <- hasRecommendations data ;;
  if cond then
    recommendations <- Get data (str "recommendations") ;;
    responseText <-
      match recommendations with
      | VArr elems =>
          forEach elems 0 (str "Here are the top recommendations:" ++ LF)
      | _ =>
          Throw (TypeError "data.recommendations.forEach is not a function")
      end ;;
    Normal (setMessages (fun prevMessages =>
              prevMessages ++ [ {| sender := bot; text := responseText |} ]) st)
  else
    Normal (setMessages (fun prevMessages =>
              prevMessages ++ [ noRecommendations ]) st).

(** ** sendDataToBackend: the promise chain *)

(** How [response.json()] settles. *)
Inductive JsonResult : Type :=
  | JsonRejected (error : JsError)
  | JsonResolved (data : value).

(** How [fetch] settles: rejected, or resolved with a response. *)
Inductive FetchResult : Type :=
  | FetchRejected (error : JsError)
  | FetchResolved (status : Z) (json : JsonResult).

(** [response.ok] *)
Definition ok (status : Z) : bool := (200 <=? status) && (status <=? 299).

(** The first [then] callback. *)
Definition onResponse (r : FetchResult) : completion value :=
  match r with
  | FetchRejected error => Throw error
  | FetchResolved status json =>
      if negb (ok status) then
        Throw (Error (str "HTTP error! Status: "
                      ++ Number_toString (num_of_Z status)))
      else
        match json with
        | JsonRejected error => Throw error
        | JsonResolved data => Normal data
        end
  end.

(** The second [then] callback. *)
Definition onData (data : value) (st : State) : completion State :=
  st <- displayRecommendations data st ;;
  Normal (setRainfallMm None
            (setTemperatureC None (setSoilMoisture None (setSoilpH None st)))).

Definition errorMessage (error : JsError) : Message :=
  {| sender := bot;
     text := str "Error fetching recommendations: " ++ message error
             ++ str ". Please try again." |}.

(** The [catch] callback. *)
Definition onError (error : JsError) (st : State) : State :=
  setMessages (fun prevMessages => prevMessages ++ [ errorMessage error ]) st.

(** The whole chain, run on the state current when [fetch] settles. *)
Definition settle (r : FetchResult) (st : State) : State :=
  match (data <- onResponse r ;; onData data st) with
  | Normal st' => st'
  | Throw error => onError error st
  end.

(** ** Input controls *)

(** [e.target.value === '' ? null : parseFloat(e.target.value)] *)
Definition onChange (targetValue : jsstring) : option number :=
  match targetValue with
  | [] => None
  | _ => Some (parseFloat targetValue)
  end.

(** ** The rendered tree *)

Definition senderName (s : Sender) : jsstring :=
  match s with
  | user => str "user"
  | bot => str "bot"
  end.

(** One [div] of the chat container: its class and its lines. *)
Record Bubble : Type := { className : jsstring; lines : list jsstring }.

Definition bubble (msg : Message) : Bubble :=
  {| className := senderName (sender msg) ++ str "-message";
     lines := split_on 10%N (text msg) |}.

(** The panel: the chat container and the values of the four controls. *)
Record Panel : Type := { chat : list Bubble; controls : list (option number) }.

(** What the component returns below the icon: nothing while hidden. *)
Definition view (st : State) : option Panel :=
  if isVisible st then
    Some {| chat := map bubble (messages st); controls := inputs st |}
  else None.

(** ** Events *)

Inductive Field : Type := Soil_pH | Soil_Moisture | Temperature_C | Rainfall_mm.

Inductive Event : Type :=
  | ClickIcon
  | Change (field : Field) (targetValue : jsstring)
  | ClickSend
  | Settled (r : FetchResult).

Definition setField (field : Field) : option number -> State -> State :=
  match field with
  | Soil_pH => setSoilpH
  | Soil_Moisture => setSoilMoisture
  | Temperature_C => setTemperatureC
  | Rainfall_mm => setRainfallMm
  end.

(** The effect of an event on the state.  [Settled] is accepted whether or
    not a request is pending: every run of the component is among the runs
    this allows. *)
Definition dispatch (ev : Event) (st : State) : State :=
  match ev with
  | ClickIcon => toggleChatbot st
  | Change field targetValue => setField field (onChange targetValue) st
  | ClickSend => fst (handleGetRecommendations st)
  | Settled r => settle r st
  end.

(** The state after a sequence of events. *)
Definition run (evs : list Event) (st : State) : State :=
  fold_left (fun st ev => dispatch ev st) evs st.

(** The states the widget can be in. *)
Inductive reachable : State -> Prop :=
  | reachable_initial : reachable initial
  | reachable_dispatch ev st : reachable st -> reachable (dispatch ev st).

End Chatbot.

(* ================================================================== *)
(** * Vocabulary of the properties *)
(* ================================================================== *)

Module Spec.
Import JS Chatbot.

(** The message the transcript starts with. *)
Definition welcomeMessage : Message := {| sender := bot; text := welcome |}.

(** JSON text written with apostrophes in place of quotation marks. *)
Definition json_text (s : string) : jsstring :=
  map (fun c => if N.eqb c 39 then 34%N else c) (str s).

(** How [JSON.stringify] prints a number. *)
Definition json_number (x : number) : jsstring :=
  if isFinite x then Number_toString x else str "null".

(** The dictionary [handleGetRecommendations] passes on for four numbers. *)
Definition dataToSend_of (pH moisture temp rainfall : number)
  : list (jsstring * value) :=
  [ (str "Soil_pH", VNum pH); (str "Soil_Moisture", VNum moisture);
    (str "Temperature_C", VNum temp); (str "Rainfall_mm", VNum rainfall) ].

(** The numbers 6.5, 40, 25 and 100. *)
Definition sample_pH : number := num_of_decimal false 65 (-1).
Definition sample_moisture : number := num_of_Z 40.
Definition sample_temp : number := num_of_Z 25.
Definition sample_rainfall : number := num_of_Z 100.

(** The widget after the user has typed those four numbers. *)
Definition filled_in : State :=
  run [ Change Soil_pH (str "6.5"); Change Soil_Moisture (str "40");
        Change Temperature_C (str "25"); Change Rainfall_mm (str "100") ]
      initial.

(** A field is absent or holds something that is not a finite number. *)
Definition absent_or_not_finite (v : option number) : bool :=
  match v with
  | None => true
  | Some x => negb (isFinite x)
  end.

(** A field is absent or holds a finite number. *)
Definition absent_or_finite (v : option number) : bool :=
  match v with
  | None => true
  | Some x => isFinite x
  end.

(** A field does not hold [Infinity] or [-Infinity]. *)
Definition holds_no_infinity (v : option number) : bool :=
  match v with
  | Some (S754_infinity _) => false
  | _ => true
  end.

Definition is_empty (s : jsstring) : bool :=
  match s with
  | [] => true
  | _ :: _ => false
  end.

(** A valid floating-point number in the sense of HTML: an optional
    minus sign, digits with an optional fraction or a fraction alone, and
    an optional exponent. *)
Definition html_float (s : jsstring) : bool :=
  let r0 := match s with 45%N :: r => r | _ => s end in
  let '(ip, r1) := span_digits r0 in
  let '(fp, r2, point_ok) :=
    match r1 with
    | 46%N :: r => let '(fp, r') := span_digits r in (fp, r', negb (is_empty fp))
    | _ => ([], r1, true)
    end in
  let exponent_ok :=
    match r2 with
    | [] => true
    | c :: r =>
        (N.eqb c 101 || N.eqb c 69)
        && let '(_, r3) := take_sign r in
           let '(ed, r4) := span_digits r3 in
           negb (is_empty ed) && is_empty r4
    end in
  point_ok && negb (is_empty ip && is_empty fp) && exponent_ok.

(** What [e.target.value] of an [<input type="number">] can be: the empty
    string - also when the text typed is no number or is out of range - or
    a valid floating-point number whose value is finite. *)
Definition reported (targetValue : jsstring) : bool :=
  match targetValue with
  | [] => true
  | _ :: _ => html_float targetValue && isFinite (parseFloat targetValue)
  end.

(** An event as the page can deliver it: the four controls are number
    inputs. *)
Definition genuine (ev : Event) : bool :=
  match ev with
  | Change _ targetValue => reported targetValue
  | _ => true
  end.

(** The states the widget reaches through such events. *)
Inductive attainable : State -> Prop :=
  | attainable_initial : attainable initial
  | attainable_dispatch ev st :
      attainable st -> genuine ev = true -> attainable (dispatch ev st).

(** The widget after the user has typed 6.5 for the soil pH only. *)
Definition pH_only : State := dispatch (Change Soil_pH (str "6.5")) initial.

(** A field is absent or holds NaN. *)
Definition absent_or_NaN (v : option number) : bool :=
  match v with
  | None => true
  | Some x => isNaN x
  end.

(** The names of the fields that are absent or NaN, in field order. *)
Definition offending (st : State) : list jsstring :=
  map fst (filter (fun p => absent_or_NaN (snd p))
                  (combine requiredFields (inputs st))).

(** The names of the fields that are absent or hold no finite number, in
    field order. *)
Definition unfilled (st : State) : list jsstring :=
  map fst (filter (fun p => absent_or_not_finite (snd p))
                  (combine requiredFields (inputs st))).

(** The text of the validation message for those names. *)
Definition validationText (names : list jsstring) : jsstring :=
  str "Please enter valid values for: "
  ++ join (str ", ") (map (replace_all 95%N (str " ")) names) ++ str ".".

(** The user's summary of four numbers. *)
Definition summaryText (pH moisture temp rainfall : number) : jsstring :=
  str "My farm data: pH: " ++ Number_toString pH
  ++ str ", Moisture: " ++ Number_toString moisture
  ++ str ", Temperature: " ++ Number_toString temp ++ degree
  ++ str "C, Rainfall: " ++ Number_toString rainfall ++ str "mm".

(** A request fails with an error of message [msg]: [fetch] rejects, the
    status is outside 200..299, or the body of a 2xx response fails to
    parse. *)
Inductive RequestFailure : FetchResult -> jsstring -> Prop :=
  | transport_failure error :
      RequestFailure (FetchRejected error) (message error)
  | status_failure status json :
      status < 200 \/ 299 < status ->
      RequestFailure (FetchResolved status json)
        (str "HTTP error! Status: " ++ Number_toString (num_of_Z status))
  | parse_failure status error :
      200 <= status <= 299 ->
      RequestFailure (FetchResolved status (JsonRejected error)) (message error).

Definition errorText (msg : jsstring) : jsstring :=
  str "Error fetching recommendations: " ++ msg ++ str ". Please try again.".

Definition all_absent : list (option number) := [None; None; None; None].

(** A recommendation record as the response schema describes it. *)
Record Recommendation : Type := {
  Crop : jsstring;
  Estimated_ROI_Percentage : number;
  Predicted_Yield : number;
  Predicted_Price : number;
  Estimated_Profit : number;
  Pest_Risk_Score : number;
  Explanation : jsstring
}.

(** The value [v] is an object carrying the fields of [r], in any order
    and possibly among others. *)
Definition conforms (v : value) (r : Recommendation) : Prop :=
  match v with
  | VObj props =>
      get_own props (str "Crop") = VStr (Crop r) /\
      get_own props (str "Estimated_ROI_Percentage")
        = VNum (Estimated_ROI_Percentage r) /\
      get_own props (str "Predicted_Yield") = VNum (Predicted_Yield r) /\
      get_own props (str "Predicted_Price") = VNum (Predicted_Price r) /\
      get_own props (str "Estimated_Profit") = VNum (Estimated_Profit r) /\
      get_own props (str "Pest_Risk_Score") = VNum (Pest_Risk_Score r) /\
      get_own props (str "Explanation") = VStr (Explanation r)
  | _ => False
  end.

(** The three lines the message shows for the record at [rank]. *)
Definition roiLine (rank : nat) (r : Recommendation) : jsstring :=
  Number_toString (num_of_Z (Z.of_nat rank)) ++ str ". " ++ Crop r ++ str " - "
  ++ toFixed (Estimated_ROI_Percentage r) 1 ++ str "% ROI".

Definition yieldLine (r : Recommendation) : jsstring :=
  str "Yield: " ++ toFixed (Predicted_Yield r) 1
  ++ str " tons | Price: $" ++ toFixed (Predicted_Price r) 2
  ++ str " | Profit: $" ++ toFixed (Estimated_Profit r) 2.

Definition riskLine (r : Recommendation) : jsstring :=
  str "Pest Risk: " ++ toFixed (mul (Pest_Risk_Score r) (num_of_Z 100)) 1
  ++ str "%".

(** The whole block of the record at [rank]. *)
Definition block (rank : nat) (r : Recommendation) : jsstring :=
  roiLine rank r ++ LF
  ++ indent ++ yieldLine r ++ LF
  ++ indent ++ riskLine r ++ LF
  ++ indent ++ str "Summary: " ++ Explanation r ++ LF ++ LF.

(** The blocks of [recs], ranked from [rank] on. *)
Fixpoint blocks (rank : nat) (recs : list Recommendation) : jsstring :=
  match recs with
  | [] => []
  | r :: rest => block rank r ++ blocks (S rank) rest
  end.

Definition recommendationsText (recs : list Recommendation) : jsstring :=
  str "Here are the top recommendations:" ++ LF ++ blocks 1 recs.

(** The record of the specification's example. *)
Definition maize : Recommendation :=
  {| Crop := str "Maize";
     Estimated_ROI_Percentage := num_of_decimal false 1234 (-2);
     Predicted_Yield := num_of_decimal false 5678 (-3);
     Predicted_Price := num_of_decimal false 2005 (-1);
     Estimated_Profit := num_of_decimal false 150256 (-3);
     Pest_Risk_Score := num_of_decimal false 2 (-1);
     Explanation := str "stable" |}.

(** The object [JSON.parse] makes of a record. *)
Definition to_value (r : Recommendation) : value :=
  VObj [ (str "Crop", VStr (Crop r));
         (str "Estimated_ROI_Percentage", VNum (Estimated_ROI_Percentage r));
         (str "Predicted_Yield", VNum (Predicted_Yield r));
         (str "Predicted_Price", VNum (Predicted_Price r));
         (str "Estimated_Profit", VNum (Estimated_Profit r));
         (str "Pest_Risk_Score", VNum (Pest_Risk_Score r));
         (str "Explanation", VStr (Explanation r)) ].

(** A response payload with the given [recommendations]. *)
Definition payload (recommendations : value) : value :=
  VObj [ (str "recommendations", recommendations) ].

(** The payload [{"recommendations": [{}]}]. *)
Definition empty_record_payload : value := payload (VArr [VObj []]).

(** The payload carries no recommendations: it is absent, or its
    [recommendations] is absent or an empty array. *)
Definition without_recommendations (data : value) : Prop :=
  data = VUndefined \/ data = VNull \/
  exists props,
    data = VObj props /\
    (get_own props (str "recommendations") = VUndefined \/
     get_own props (str "recommendations") = VNull \/
     get_own props (str "recommendations") = VArr []).

(** Neither an array nor an object. *)
Definition primitive (v : value) : bool :=
  match v with
  | VArr _ | VObj _ => false
  | _ => true
  end.

Definition is_number (v : value) : bool :=
  match v with
  | VNum _ => true
  | _ => false
  end.

(** The four fields on which the renderer calls [toFixed]. *)
Definition fixedFields : list jsstring :=
  [ str "Estimated_ROI_Percentage"; str "Predicted_Yield";
    str "Predicted_Price"; str "Estimated_Profit" ].

(** Reading [key] from [v] gives a number. *)
Definition has_number (v : value) (key : jsstring) : bool :=
  match Get v key with
  | Normal (VNum _) => true
  | _ => false
  end.

(** A record lacks a number in one of the [toFixed] fields. *)
Definition unformattable (rec : value) : Prop :=
  forallb (has_number rec) fixedFields = false.

(** A record the renderer can format: an object with numbers in the four
    [toFixed] fields and nothing structured in the other three. *)
Definition formattable (v : value) : bool :=
  match v with
  | VObj props =>
      forallb (has_number v) fixedFields
      && primitive (get_own props (str "Crop"))
      && primitive (get_own props (str "Pest_Risk_Score"))
      && primitive (get_own props (str "Explanation"))
  | _ => false
  end.

(** A payload the renderer handles without throwing: a falsy one, one
    without a truthy [recommendations], or one whose [recommendations] is
    an array of formattable records. *)
Definition renderable (data : value) : bool :=
  if ToBoolean data then
    match data with
    | VObj props =>
        match get_own props (str "recommendations") with
        | VArr elems => forallb formattable elems
        | r => negb (ToBoolean r)
        end
    | _ => true
    end
  else true.

End Spec.

(* ================================================================== *)
(** * The children of a chat bubble *)
(* ================================================================== *)

Module Markup.
Import JS Chatbot.

(** What a bubble holds: a line of text or a [<br />]. *)
Inductive Node : Type :=
  | Line (line : jsstring)
  | Br.

(** [lines.map((line, i) => <>{line}{i < length - 1 && <br />}</>)],
    from index [i] on, where [length] is the number of all lines. *)
Fixpoint fragments (lines : list jsstring) (i : nat) (length : nat)
  : list Node :=
  match lines with
  | [] => []
  | line :: rest =>
      Line line :: (if Nat.ltb i (length - 1) then [Br] else [])
      ++ fragments rest (S i) length
  end.

(** The children of the [div] that shows a message. *)
Definition children (msg : Message) : list Node :=
  let lines := split_on 10%N (text msg) in
  fragments lines 0 (List.length lines).

(** The text a reader sees: every [<br />] starts a new line. *)
Fixpoint shown (nodes : list Node) : jsstring :=
  match nodes with
  | [] => []
  | Line line :: rest => line ++ shown rest
  | Br :: rest => 10%N :: shown rest
  end.

Definition is_br (n : Node) : bool :=
  match n with
  | Br => true
  | Line _ => false
  end.

(** No line feed occurs in the nodes' text. *)
Definition free_of_LF (n : Node) : bool :=
  match n with
  | Br => true
  | Line line => negb (existsb (N.eqb 10) line)
  end.

End Markup.

(* ================================================================== *)
(** * Vocabulary of the further properties *)
(* ================================================================== *)

Module Vocabulary.
Import JS Chatbot Spec.

(** The state cell behind an input control. *)
Definition fieldValue (field : Field) (st : State) : option number :=
  match field with
  | Soil_pH => soilpH st
  | Soil_Moisture => soilMoisture st
  | Temperature_C => temperatureC st
  | Rainfall_mm => rainfallMm st
  end.

(** The name the validation message shows for a field. *)
Definition shownName (field : Field) : jsstring :=
  match field with
  | Soil_pH => str "Soil pH"
  | Soil_Moisture => str "Soil Moisture"
  | Temperature_C => str "Temperature C"
  | Rainfall_mm => str "Rainfall mm"
  end.

Definition field_eqb (f g : Field) : bool :=
  match f, g with
  | Soil_pH, Soil_pH | Soil_Moisture, Soil_Moisture
  | Temperature_C, Temperature_C | Rainfall_mm, Rainfall_mm => true
  | _, _ => false
  end.

(** The user's summary of the four fields as they stand. *)
Definition summaryOf (st : State) : Message :=
  {| sender := user;
     text := str "My farm data: pH: " ++ subst (soilpH st)
             ++ str ", Moisture: " ++ subst (soilMoisture st)
             ++ str ", Temperature: " ++ subst (temperatureC st) ++ degree
             ++ str "C, Rainfall: " ++ subst (rainfallMm st) ++ str "mm" |}.

(** The dictionary made of the four fields as they stand. *)
Definition dataOf (st : State) : list (jsstring * value) :=
  [ (str "Soil_pH", of_input (soilpH st));
    (str "Soil_Moisture", of_input (soilMoisture st));
    (str "Temperature_C", of_input (temperatureC st));
    (str "Rainfall_mm", of_input (rainfallMm st)) ].

(** The message [displayRecommendations] appends for a payload, or the
    error it throws: neither depends on the state. *)
Definition messageFor (data : value) : completion Message :=
  cond <- hasRecommendations data ;;
  if cond then
    recommendations <- Get data (str "recommendations") ;;
    responseText <-
      match recommendations with
      | VArr elems =>
          forEach elems 0 (str "Here are the top recommendations:" ++ LF)
      | _ =>
          Throw (TypeError "data.recommendations.forEach is not a function")
      end ;;
    Normal {| sender := bot; text := responseText |}
  else Normal noRecommendations.

(** The number of clicks on the icon among the events. *)
Definition iconClicks (evs : list Event) : nat :=
  List.length (filter (fun ev => match ev with ClickIcon => true | _ => false end)
                      evs).

Definition is_fetching (m : Message) : bool :=
  match sender m with
  | bot => jsstring_eqb (text m) (str "Fetching recommendations...")
  | user => false
  end.

(** Every message of the user opens with [My farm data: pH: ] and is
    directly followed by the bot's [Fetching recommendations...]. *)
Fixpoint summaries_answered (ms : list Message) : bool :=
  match ms with
  | [] => true
  | m :: rest =>
      match sender m with
      | bot => summaries_answered rest
      | user =>
          is_prefix (str "My farm data: pH: ") (text m)
          && match rest with
             | next :: _ => is_fetching next
             | [] => false
             end
          && summaries_answered rest
      end
  end.

(** The text shown for a record that has numbers in the four [toFixed]
    fields but neither [Crop], [Pest_Risk_Score] nor [Explanation]. *)
Definition bareBlock (rank : nat) (roi yield price profit : number) : jsstring :=
  Number_toString (num_of_Z (Z.of_nat rank)) ++ str ". undefined - "
  ++ toFixed roi 1 ++ str "% ROI" ++ LF
  ++ indent ++ str "Yield: " ++ toFixed yield 1 ++ str " tons | Price: $"
  ++ toFixed price 2 ++ str " | Profit: $" ++ toFixed profit 2 ++ LF
  ++ indent ++ str "Pest Risk: NaN%" ++ LF
  ++ indent ++ str "Summary: undefined" ++ LF ++ LF.

(** A finite number of magnitude below 10^21, where [toFixed] switches to
    exponent notation. *)
Definition below_1e21 (x : number) : bool :=
  match x with
  | S754_zero _ => true
  | S754_finite _ m e =>
      let xp := if 0 <=? e then Zpos m * 2 ^ e else Zpos m in
      let xq := if 0 <=? e then 1 else 2 ^ (- e) in
      xp <? xq * 10 ^ 21
  | _ => false
  end.

(** A numeral in fixed-point notation with [f] decimals: an optional
    minus sign, at least one digit, a point and exactly [f] digits. *)
Definition fixed_decimal (f : nat) (s : jsstring) : Prop :=
  exists (neg : bool) (whole frac : jsstring),
    s = (if neg then str "-" else []) ++ whole ++ str "." ++ frac /\
    whole <> [] /\
    forallb is_digit whole = true /\
    forallb is_digit frac = true /\
    List.length frac = f.

End Vocabulary.

(* ================================================================== *)
(** * Properties *)
(* ================================================================== *)

Import JS Chatbot Spec Markup Vocabulary.

(** ** The setters of the fields leave the transcript alone *)

Lemma messages_setField field v st : messages (setField field v st) = messages st.
Proof. destruct field; reflexivity. Qed.

(** ** C1: the request body *)

(** C1.  For every four numbers the object that [sendDataToBackend]
    serialises puts [Soil_pH] and [Soil_Moisture] under [farmInputs] and
    [Temperature_C] and [Rainfall_mm] under [weatherForecast], the body is
    the JSON text of that object, and for 6.5, 40, 25 and 100 the body is
    exactly the text the specification gives. *)
Theorem request_body_groups_inputs :
  (forall pH moisture temp rainfall : number,
     let dataToSend := dataToSend_of pH moisture temp rainfall in
     requestObject dataToSend =
       VObj [ (str "farmInputs",
               VObj [ (str "Soil_pH", VNum pH);
                      (str "Soil_Moisture", VNum moisture) ]);
              (str "weatherForecast",
               VObj [ (str "Temperature_C", VNum temp);
                      (str "Rainfall_mm", VNum rainfall) ]) ]
     /\ body (sendDataToBackend dataToSend) =
          Some (json_text "{'farmInputs':{'Soil_pH':" ++ json_number pH
                ++ json_text ",'Soil_Moisture':" ++ json_number moisture
                ++ json_text "},'weatherForecast':{'Temperature_C':"
                ++ json_number temp
                ++ json_text ",'Rainfall_mm':" ++ json_number rainfall
                ++ json_text "}}"))
  /\ body (sendDataToBackend
             (dataToSend_of sample_pH sample_moisture sample_temp
                            sample_rainfall)) =
       Some (json_text
         "{'farmInputs':{'Soil_pH':6.5,'Soil_Moisture':40},'weatherForecast':{'Temperature_C':25,'Rainfall_mm':100}}").
Proof.
  split.
  - intros pH moisture temp rainfall dataToSend. split.
    + reflexivity.
    + unfold sendDataToBackend, dataToSend, dataToSend_of, requestObject.
      cbn [body get_own jsstring_eqb str].
      cbn -[Number_toString isFinite].
      unfold json_number.
      repeat (rewrite <- ?app_assoc; cbn [app]).
      reflexivity.
  - vm_compute. reflexivity.
Qed.

(** ** C9: the visibility toggle *)

Lemma toggle_iter_frame n st :
  messages (Nat.iter n toggleChatbot st) = messages st /\
  inputs (Nat.iter n toggleChatbot st) = inputs st.
Proof.
  induction n as [|n [IHm IHi]]; simpl; [split; reflexivity|].
  split; [rewrite <- IHm | rewrite <- IHi]; reflexivity.
Qed.

(** C9.  The flag starts out false; toggling twice gives back the very
    same state, hence the same rendered tree; and toggling any number of
    times changes neither the transcript nor the four input fields. *)
Theorem toggle_is_an_involution :
  isVisible initial = false /\
  view initial = None /\
  (forall st, isVisible (toggleChatbot st) = negb (isVisible st)) /\
  (forall st, toggleChatbot (toggleChatbot st) = st) /\
  (forall st, view (toggleChatbot (toggleChatbot st)) = view st) /\
  (forall n st,
     messages (Nat.iter n toggleChatbot st) = messages st /\
     inputs (Nat.iter n toggleChatbot st) = inputs st).
Proof.
  assert (Hinv : forall st, toggleChatbot (toggleChatbot st) = st).
  { intros [v ms a b c d]. unfold toggleChatbot, setIsVisible; simpl.
    rewrite negb_involutive. reflexivity. }
  repeat split; try reflexivity; auto.
  - intros st. rewrite Hinv. reflexivity.
  - apply toggle_iter_frame.
  - apply toggle_iter_frame.
Qed.

(** ** C8: the transcript only grows *)

Lemma displayRecommendations_appends data st st' :
  displayRecommendations data st = Normal st' ->
  exists m, sender m = bot /\
            st' = setMessages (fun prev => prev ++ [m]) st.
Proof.
  unfold displayRecommendations.
  destruct (hasRecommendations data) as [[|]|e]; cbn [bind]; try discriminate.
  - destruct (Get data (str "recommendations")) as [r|e]; cbn [bind];
      try discriminate.
    destruct r; cbn [bind]; try discriminate.
    match goal with
    | |- context [forEach ?a ?b ?c] => destruct (forEach a b c) as [t|e]
    end; cbn [bind]; try discriminate.
    intros H; inversion H. eexists; split; [|reflexivity]. reflexivity.
  - intros H; inversion H. exists noRecommendations. split; reflexivity.
Qed.

Lemma settle_cases r st :
  (exists error, settle r st = onError error st) \/
  (exists status data st1,
     r = FetchResolved status (JsonResolved data) /\ ok status = true /\
     displayRecommendations data st = Normal st1 /\
     settle r st =
       setRainfallMm None
         (setTemperatureC None (setSoilMoisture None (setSoilpH None st1)))).
Proof.
  unfold settle.
  destruct r as [error|status json]; simpl.
  - left; eauto.
  - destruct (ok status) eqn:Hok; simpl; [|left; eauto].
    destruct json as [error|data]; simpl; [left; eauto|].
    unfold onData.
    destruct (displayRecommendations data st) as [st1|e] eqn:Hd; simpl.
    + right. exists status, data, st1. auto.
    + left; eauto.
Qed.

Lemma handleGetRecommendations_appends st :
  exists new, messages (fst (handleGetRecommendations st)) = messages st ++ new.
Proof.
  unfold handleGetRecommendations.
  destruct (forallb _ requiredFields); simpl; eauto.
Qed.

Lemma dispatch_appends ev st :
  exists new, messages (dispatch ev st) = messages st ++ new.
Proof.
  destruct ev as [|field v| |r]; simpl.
  - exists []. rewrite app_nil_r. reflexivity.
  - exists []. rewrite app_nil_r. apply messages_setField.
  - apply handleGetRecommendations_appends.
  - destruct (settle_cases r st) as [[e He]|(status & data & st1 & _ & _ & Hd & Hs)].
    + rewrite He. eexists. reflexivity.
    + rewrite Hs. apply displayRecommendations_appends in Hd.
      destruct Hd as (m & _ & ->). eexists. reflexivity.
Qed.

Lemma run_appends evs : forall st,
  exists new, messages (run evs st) = messages st ++ new.
Proof.
  induction evs as [|ev evs IH]; intros st.
  - exists []. rewrite app_nil_r. reflexivity.
  - change (run (ev :: evs) st) with (run evs (dispatch ev st)).
    destruct (IH (dispatch ev st)) as [n2 H2].
    destruct (dispatch_appends ev st) as [n1 H1].
    exists (n1 ++ n2). rewrite H2, H1, app_assoc. reflexivity.
Qed.

(** C8.  Every event of the widget - a click on the icon, an edit of an
    input, a click on the send button on either branch, the settling of a
    request with any outcome - leaves the transcript as it was or extends
    it at its end, and so does the renderer; hence so does every sequence of
    events: the transcript never gets shorter, no message already in it is
    dropped or changed, and the chat container shows the old bubbles in
    their old order followed by the new ones. *)
Theorem transcript_is_append_only :
  (forall ev st, exists new,
     messages (dispatch ev st) = messages st ++ new /\
     map bubble (messages (dispatch ev st))
       = map bubble (messages st) ++ map bubble new) /\
  (forall data st,
     match displayRecommendations data st with
     | Normal st' => exists m, messages st' = messages st ++ [m]
     | Throw _ => True
     end) /\
  (forall evs st, exists new,
     messages (run evs st) = messages st ++ new /\
     (List.length (messages st) <= List.length (messages (run evs st)))%nat /\
     map bubble (messages (run evs st))
       = map bubble (messages st) ++ map bubble new) /\
  (forall st,
     match view st with
     | Some panel => chat panel = map bubble (messages st)
     | None => isVisible st = false
     end).
Proof.
  split; [|split; [|split]].
  - intros ev st. destruct (dispatch_appends ev st) as [new H].
    exists new. rewrite H, map_app. auto.
  - intros data st.
    destruct (displayRecommendations data st) as [st'|e] eqn:E; [|exact I].
    apply displayRecommendations_appends in E. destruct E as (m & _ & ->).
    exists m. reflexivity.
  - intros evs st. destruct (run_appends evs st) as [new H].
    exists new. rewrite H, map_app, length_app.
    split; [reflexivity|]. split; [lia|reflexivity].
  - intros st. unfold view. destruct (isVisible st); reflexivity.
Qed.

(** ** C10: the welcome message *)

(** C10.  The transcript starts out as the single welcome message of the
    bot, and in every reachable state it is that message followed by
    whatever was appended since: never empty, its first sender the bot. *)
Theorem transcript_starts_with_welcome :
  forall st, reachable st ->
    messages initial = [welcomeMessage] /\
    sender welcomeMessage = bot /\
    exists rest, messages st = welcomeMessage :: rest.
Proof.
  intros st H. split; [reflexivity|]. split; [reflexivity|].
  induction H as [|ev st H [rest IH]].
  - exists []. reflexivity.
  - destruct (dispatch_appends ev st) as [new Hn].
    exists (rest ++ new). rewrite Hn, IH. reflexivity.
Qed.

Lemma transcript_starts_with_welcome_witness :
  reachable (dispatch ClickSend initial) /\
  exists rest, messages (dispatch ClickSend initial) = welcomeMessage :: rest.
Proof.
  assert (H : reachable (dispatch ClickSend initial))
    by (apply reachable_dispatch, reachable_initial).
  split; [exact H|].
  exact (proj2 (proj2 (transcript_starts_with_welcome _ H))).
Defined.

(** ** C2 and C3: the validation gate *)

Lemma filled_spec fi field :
  filled fi field = negb (absent_or_NaN (index fi field)).
Proof. unfold filled. destruct (index fi field); reflexivity. Qed.

Lemma missing_spec fi field :
  missing fi field = absent_or_NaN (index fi field).
Proof. unfold missing. destruct (index fi field); reflexivity. Qed.

Lemma index_farmInputs (a b c d : option number) :
  let farmInputs : FarmInputs :=
    [ (str "Soil_pH", a); (str "Soil_Moisture", b);
      (str "Temperature_C", c); (str "Rainfall_mm", d) ] in
  index farmInputs (str "Soil_pH") = a /\
  index farmInputs (str "Soil_Moisture") = b /\
  index farmInputs (str "Temperature_C") = c /\
  index farmInputs (str "Rainfall_mm") = d.
Proof.
  split; [|split; [|split]]; vm_compute; reflexivity.
Qed.

Lemma isFinite_not_NaN x : isFinite x = true -> isNaN x = false.
Proof. destruct x; simpl; congruence. Qed.

(** The two branches of [handleGetRecommendations]. *)
Lemma handleGetRecommendations_cases st :
  handleGetRecommendations st =
    if existsb absent_or_NaN (inputs st) then
      (setMessages
         (fun prev =>
            prev ++ [ {| sender := bot;
                         text := validationText (offending st) |} ]) st,
       None)
    else
      (setMessages (fun prev => prev ++ [summaryOf st; fetching]) st,
       Some (dataOf st)).
Proof.
  destruct st as [v ms a b c d].
  unfold handleGetRecommendations, offending, validationText, summaryOf, dataOf.
  unfold inputs.
  cbn [soilpH soilMoisture temperatureC rainfallMm].
  cbn [requiredFields forallb filter combine snd existsb map].
  rewrite !filled_spec, !missing_spec.
  destruct (index_farmInputs a b c d) as (-> & -> & -> & ->).
  destruct (absent_or_NaN a), (absent_or_NaN b), (absent_or_NaN c),
    (absent_or_NaN d); cbn [negb andb orb];
    lazymatch goal with
    | |- (_, Some _) = _ => reflexivity
    | |- _ => vm_compute; reflexivity
    end.
Qed.

(** What a number control reports is read as a finite number, or as
    nothing. *)
Lemma reported_reads_finite targetValue :
  reported targetValue = true ->
  absent_or_finite (onChange targetValue) = true.
Proof.
  destruct targetValue as [|c r]; [reflexivity|].
  unfold reported, onChange, absent_or_finite.
  intros H. apply andb_true_iff in H. exact (proj2 H).
Qed.

Lemma inputs_after_settle r st :
  inputs (settle r st) = inputs st \/ inputs (settle r st) = all_absent.
Proof.
  destruct (settle_cases r st)
    as [[e He]|(status & data & st1 & _ & _ & Hd & Hs)].
  - left. rewrite He. reflexivity.
  - right. rewrite Hs. apply displayRecommendations_appends in Hd.
    destruct Hd as (m & _ & ->). reflexivity.
Qed.

(** The fields of an attainable state are absent or finite. *)
Lemma attainable_fields st :
  attainable st -> forallb absent_or_finite (inputs st) = true.
Proof.
  induction 1 as [|ev st _ IH Hg]; [reflexivity|].
  destruct ev as [|field targetValue| |r]; cbn [dispatch].
  - exact IH.
  - apply reported_reads_finite in Hg.
    destruct st as [v ms a b c d]. unfold inputs in *.
    cbn [soilpH soilMoisture temperatureC rainfallMm forallb] in IH.
    repeat (apply andb_true_iff in IH; destruct IH as [? IH]).
    destruct field;
      cbn [setField setSoilpH setSoilMoisture setTemperatureC setRainfallMm
           soilpH soilMoisture temperatureC rainfallMm forallb];
      repeat (apply andb_true_iff; split); assumption.
  - rewrite handleGetRecommendations_cases.
    destruct (existsb absent_or_NaN (inputs st)); exact IH.
  - destruct (inputs_after_settle r st) as [E|E]; rewrite E;
      [exact IH|reflexivity].
Qed.

Lemma finite_holds_no_infinity v :
  absent_or_finite v = true -> holds_no_infinity v = true.
Proof. destruct v as [[]|]; simpl; congruence. Qed.

Lemma not_finite_is_NaN v :
  holds_no_infinity v = true -> absent_or_not_finite v = absent_or_NaN v.
Proof. destruct v as [[]|]; simpl; congruence. Qed.

(** C2.  The four controls are number inputs, so the fields of every
    state the widget attains are absent or finite; in particular none
    holds an infinity.  In every state none of whose fields holds an
    infinity, if a field is absent or is not a finite number,
    [handleGetRecommendations] appends exactly one message of the bot,
    [Please enter valid values for: <names>.], whose names are those of the
    absent or not finite fields in field order, each with its underscores
    turned into spaces, joined by a comma and a space; it does not call
    [sendDataToBackend]; and it leaves the four fields and the visibility
    flag as they were. *)
Theorem validation_failure_lists_fields :
  (forall st,
     attainable st ->
     forallb absent_or_finite (inputs st) = true /\
     forallb holds_no_infinity (inputs st) = true)
  /\ (forall st,
        forallb holds_no_infinity (inputs st) = true ->
        existsb absent_or_not_finite (inputs st) = true ->
        messages (fst (handleGetRecommendations st)) =
          messages st
          ++ [ {| sender := bot; text := validationText (unfilled st) |} ]
        /\ snd (handleGetRecommendations st) = None
        /\ inputs (fst (handleGetRecommendations st)) = inputs st
        /\ isVisible (fst (handleGetRecommendations st)) = isVisible st).
Proof.
  split.
  - intros st H. pose proof (attainable_fields st H) as Hf.
    split; [exact Hf|].
    rewrite forallb_forall in *. intros v Hv.
    apply finite_holds_no_infinity, Hf, Hv.
  - intros [v ms a b c d] Hn He.
    unfold inputs in Hn, He.
    cbn [soilpH soilMoisture temperatureC rainfallMm forallb existsb] in Hn, He.
    repeat (apply andb_true_iff in Hn; destruct Hn as [? Hn]).
    assert (Hu : unfilled
                   {| isVisible := v; messages := ms; soilpH := a;
                      soilMoisture := b; temperatureC := c; rainfallMm := d |}
                 = offending
                   {| isVisible := v; messages := ms; soilpH := a;
                      soilMoisture := b; temperatureC := c; rainfallMm := d |}).
    { unfold unfilled, offending, inputs.
      cbn [soilpH soilMoisture temperatureC rainfallMm requiredFields combine
           filter snd].
      rewrite !not_finite_is_NaN by assumption. reflexivity. }
    rewrite !not_finite_is_NaN in He by assumption.
    rewrite handleGetRecommendations_cases, Hu.
    replace (existsb absent_or_NaN
               (inputs {| isVisible := v; messages := ms; soilpH := a;
                          soilMoisture := b; temperatureC := c;
                          rainfallMm := d |})) with true
      by (symmetry; exact He).
    split; [|split; [|split]]; reflexivity.
Qed.

Lemma attainable_pH_only : attainable pH_only.
Proof.
  apply attainable_dispatch; [apply attainable_initial|].
  vm_compute. reflexivity.
Qed.

Lemma validation_failure_lists_fields_witness :
  attainable pH_only /\
  inputs pH_only = [Some sample_pH; None; None; None] /\
  messages (fst (handleGetRecommendations pH_only)) =
    [ welcomeMessage;
      {| sender := bot;
         text := str "Please enter valid values for: Soil Moisture, Temperature C, Rainfall mm." |} ]
  /\ snd (handleGetRecommendations pH_only) = None.
Proof.
  split; [exact attainable_pH_only|].
  split; [vm_compute; reflexivity|].
  destruct (proj1 validation_failure_lists_fields pH_only attainable_pH_only)
    as [_ Hn].
  destruct (proj2 validation_failure_lists_fields pH_only Hn)
    as (Hm & Hs & _); [vm_compute; reflexivity|].
  split; [|exact Hs].
  rewrite Hm. vm_compute. reflexivity.
Defined.

(** C3.  If the four input fields hold finite numbers,
    [handleGetRecommendations] appends exactly two messages to the
    transcript - the user's summary, which interpolates the four values,
    then the bot's [Fetching recommendations...] - and calls
    [sendDataToBackend] with those four values; the fields and the
    visibility flag stay as they were. *)
Theorem valid_submission_appends_two_messages :
  forall st pH moisture temp rainfall,
    inputs st = [Some pH; Some moisture; Some temp; Some rainfall] ->
    isFinite pH = true -> isFinite moisture = true ->
    isFinite temp = true -> isFinite rainfall = true ->
    messages (fst (handleGetRecommendations st)) =
      messages st
      ++ [ {| sender := user;
              text := summaryText pH moisture temp rainfall |};
           {| sender := bot; text := str "Fetching recommendations..." |} ]
    /\ snd (handleGetRecommendations st)
       = Some (dataToSend_of pH moisture temp rainfall)
    /\ inputs (fst (handleGetRecommendations st)) = inputs st
    /\ isVisible (fst (handleGetRecommendations st)) = isVisible st.
Proof.
  intros [v ms a b c d] pH moisture temp rainfall H Ha Hb Hc Hd.
  unfold inputs in H.
  cbn [soilpH soilMoisture temperatureC rainfallMm] in H.
  injection H as -> -> -> ->.
  rewrite handleGetRecommendations_cases.
  replace (existsb absent_or_NaN
             (inputs {| isVisible := v; messages := ms; soilpH := Some pH;
                        soilMoisture := Some moisture;
                        temperatureC := Some temp;
                        rainfallMm := Some rainfall |})) with false.
  - split; [|split; [|split]]; reflexivity.
  - unfold inputs.
    cbn [soilpH soilMoisture temperatureC rainfallMm existsb absent_or_NaN].
    rewrite (isFinite_not_NaN _ Ha), (isFinite_not_NaN _ Hb),
      (isFinite_not_NaN _ Hc), (isFinite_not_NaN _ Hd).
    reflexivity.
Qed.

Lemma valid_submission_appends_two_messages_witness :
  inputs filled_in
    = [Some sample_pH; Some sample_moisture; Some sample_temp;
       Some sample_rainfall] /\
  messages (fst (handleGetRecommendations filled_in)) =
    [ welcomeMessage;
      {| sender := user;
         text := str "My farm data: pH: 6.5, Moisture: 40, Temperature: 25"
                 ++ degree ++ str "C, Rainfall: 100mm" |};
      {| sender := bot; text := str "Fetching recommendations..." |} ]
  /\ snd (handleGetRecommendations filled_in)
     = Some (dataToSend_of sample_pH sample_moisture sample_temp
                           sample_rainfall).
Proof.
  assert (Hi : inputs filled_in
    = [Some sample_pH; Some sample_moisture; Some sample_temp;
       Some sample_rainfall]) by (vm_compute; reflexivity).
  split; [exact Hi|].
  destruct (valid_submission_appends_two_messages filled_in _ _ _ _ Hi
              eq_refl eq_refl eq_refl eq_refl) as (Hm & Hs & _).
  split; [|exact Hs].
  rewrite Hm. vm_compute. reflexivity.
Defined.

(** The summary of 6.5, 40, 25 and 100, spelled out. *)
Example summary_of_sample :
  summaryText sample_pH sample_moisture sample_temp sample_rainfall =
    str "My farm data: pH: 6.5, Moisture: 40, Temperature: 25" ++ degree
    ++ str "C, Rainfall: 100mm".
Proof. vm_compute. reflexivity. Qed.

(** ** C4 and C5: how a request settles *)

(** C4.  When the request fails - [fetch] rejects, the status is not
    2xx, or the body does not parse - exactly one message of the bot,
    [Error fetching recommendations: <message>. Please try again.], is
    appended, and the four input fields keep their values. *)
Theorem request_failure_appends_error :
  forall r msg st,
    RequestFailure r msg ->
    settle r st =
      setMessages
        (fun prev => prev ++ [ {| sender := bot; text := errorText msg |} ]) st
    /\ inputs (settle r st) = inputs st.
Proof.
  intros r msg st H.
  assert (E : settle r st =
      setMessages
        (fun prev => prev ++ [ {| sender := bot; text := errorText msg |} ]) st).
  { destruct H as [error|status json Hs|status error Hs]; unfold settle; simpl.
    - reflexivity.
    - replace (ok status) with false; [reflexivity|].
      unfold ok. symmetry. apply andb_false_iff.
      destruct Hs; [left; apply Z.leb_gt|right; apply Z.leb_gt]; lia.
    - replace (ok status) with true; [reflexivity|].
      unfold ok. symmetry. apply andb_true_iff.
      split; apply Z.leb_le; lia. }
  split; [exact E|]. rewrite E. reflexivity.
Qed.

Lemma request_failure_appends_error_witness :
  RequestFailure (FetchResolved 500 (JsonResolved VNull))
    (str "HTTP error! Status: " ++ Number_toString (num_of_Z 500)) /\
  messages (settle (FetchResolved 500 (JsonResolved VNull)) filled_in) =
    messages filled_in
    ++ [ {| sender := bot;
            text := str "Error fetching recommendations: HTTP error! Status: 500. Please try again." |} ]
  /\ inputs (settle (FetchResolved 500 (JsonResolved VNull)) filled_in)
     = [Some sample_pH; Some sample_moisture; Some sample_temp;
        Some sample_rainfall].
Proof.
  assert (H : RequestFailure (FetchResolved 500 (JsonResolved VNull))
                (str "HTTP error! Status: " ++ Number_toString (num_of_Z 500)))
    by (apply status_failure; right; lia).
  split; [exact H|].
  destruct (request_failure_appends_error _ _ filled_in H) as [E I].
  split.
  - rewrite E. vm_compute. reflexivity.
  - rewrite I. vm_compute. reflexivity.
Defined.

(** C5, as the code has it.  On a 2xx response whose body parses, the
    payload goes to [displayRecommendations] first; when that returns, the
    transcript is the one it produced and the four input fields are then
    reset to absent.  The reset happens on that path only: however else a
    request settles - including a renderer that throws - the four fields
    are left as they were and one error message is appended. *)
Theorem success_resets_inputs_after_rendering :
  forall r st,
    (forall status data st1,
       r = FetchResolved status (JsonResolved data) ->
       ok status = true ->
       displayRecommendations data st = Normal st1 ->
       messages (settle r st) = messages st1 /\
       inputs (settle r st) = all_absent /\
       isVisible (settle r st) = isVisible st)
    /\ ((exists status data st1,
           r = FetchResolved status (JsonResolved data) /\
           ok status = true /\
           displayRecommendations data st = Normal st1)
        \/ (inputs (settle r st) = inputs st /\
            exists error, settle r st = onError error st)).
Proof.
  intros r st. split.
  - intros status data st1 -> Hok Hd.
    unfold settle. cbn [onResponse]. rewrite Hok. cbn [negb bind].
    unfold onData. rewrite Hd. cbn [bind].
    apply displayRecommendations_appends in Hd. destruct Hd as (m & _ & ->).
    split; [|split]; reflexivity.
  - destruct (settle_cases r st) as [[e He]|(status & data & st1 & Hr & Hok & Hd & _)].
    + right. split; [rewrite He; reflexivity|eauto].
    + left. exists status, data, st1. auto.
Qed.

Lemma success_resets_inputs_after_rendering_witness :
  ok 200 = true /\
  inputs filled_in <> all_absent /\
  inputs (settle (FetchResolved 200 (JsonResolved (payload (VArr [to_value maize]))))
                 filled_in) = all_absent.
Proof.
  split; [reflexivity|]. split; [vm_compute; discriminate|].
  destruct (displayRecommendations (payload (VArr [to_value maize])) filled_in)
    as [st1|e] eqn:Hd; [|vm_compute in Hd; discriminate Hd].
  exact (proj1 (proj2 (proj1 (success_resets_inputs_after_rendering
           (FetchResolved 200 (JsonResolved (payload (VArr [to_value maize]))))
           filled_in) 200 _ st1 eq_refl eq_refl Hd))).
Defined.

(** C5 as stated fails: a 2xx response whose payload holds a record
    without the numeric fields makes the renderer throw, and the four input
    fields are not reset. *)
Lemma success_with_empty_record_keeps_inputs :
  ok 200 = true /\
  inputs (settle (FetchResolved 200 (JsonResolved empty_record_payload)) filled_in)
    = [Some sample_pH; Some sample_moisture; Some sample_temp; Some sample_rainfall]
  /\ inputs (settle (FetchResolved 200 (JsonResolved empty_record_payload)) filled_in)
     <> all_absent
  /\ messages (settle (FetchResolved 200 (JsonResolved empty_record_payload)) filled_in)
     = messages filled_in
       ++ [ {| sender := bot;
               text := errorText (str "Cannot read properties of undefined (reading 'toFixed')") |} ].
Proof.
  split; [|split; [|split]]; try (vm_compute; reflexivity).
  vm_compute. discriminate.
Qed.

(** ** Integers convert to positive numbers

    The length of a non-empty array is a positive integer, and
    [num_of_Z] rounds a positive integer to a positive number (or to
    [Infinity]), never to zero. *)

Lemma digits2_pos_size p : digits2_pos p = Pos.size p.
Proof. induction p; simpl; congruence. Qed.

Lemma digits2_pos_le p : 2 ^ (Zpos (digits2_pos p) - 1) <= Zpos p.
Proof.
  rewrite digits2_pos_size.
  pose proof (Pos.size_le p) as H.
  assert (Hp : Zpos (2 ^ Pos.size p) <= Zpos p~0) by exact H.
  rewrite Pos2Z.inj_pow in Hp.
  replace (Zpos (Pos.size p)) with (Z.succ (Zpos (Pos.size p) - 1)) in Hp by lia.
  rewrite Z.pow_succ_r in Hp by lia.
  lia.
Qed.

Lemma shr_1_nonneg mrs : 0 <= shr_m mrs -> shr_m (shr_1 mrs) = Z.shiftr (shr_m mrs) 1.
Proof.
  intros H. rewrite <- Z.div2_spec.
  destruct mrs as [m r s]; destruct m as [|p|p]; simpl in *; try lia; auto; destruct p; reflexivity.
Qed.

Lemma iter_pos_shr_m p : forall mrs, 0 <= shr_m mrs ->
  shr_m (iter_pos shr_1 p mrs) = Z.shiftr (shr_m mrs) (Zpos p).
Proof.
  induction p as [p IH|p IH|]; intros mrs H; simpl iter_pos.
  - assert (H1 : 0 <= shr_m (shr_1 mrs)).
    { rewrite shr_1_nonneg by assumption. apply Z.shiftr_nonneg; assumption. }
    assert (H2 : 0 <= shr_m (iter_pos shr_1 p (shr_1 mrs))).
    { rewrite IH by assumption. apply Z.shiftr_nonneg; assumption. }
    rewrite IH, IH, shr_1_nonneg by assumption.
    rewrite !Z.shiftr_shiftr by lia. f_equal; lia.
  - assert (H2 : 0 <= shr_m (iter_pos shr_1 p mrs)).
    { rewrite IH by assumption. apply Z.shiftr_nonneg; assumption. }
    rewrite IH, IH by assumption.
    rewrite !Z.shiftr_shiftr by lia. f_equal; lia.
  - apply shr_1_nonneg; assumption.
Qed.

Lemma shr_record_of_loc_m m l : shr_m (shr_record_of_loc m l) = m.
Proof. destruct l as [|[]]; reflexivity. Qed.

Lemma shr_fexp_pos m e l :
  emin prec emax <= e ->
  0 < shr_m (fst (shr_fexp prec emax (Zpos m) e l)) /\
  emin prec emax <= snd (shr_fexp prec emax (Zpos m) e l).
Proof.
  intros He. unfold shr_fexp, shr.
  set (n := fexp prec emax (Zdigits2 (Zpos m) + e) - e).
  assert (Hn : n <= Zpos (digits2_pos m) - 1).
  { unfold n, fexp, prec, emin in *. simpl Zdigits2. unfold emax in *. lia. }
  destruct n as [|p|p] eqn:En; simpl fst; simpl snd;
    rewrite ?shr_record_of_loc_m; try (split; lia).
  rewrite iter_pos_shr_m by (rewrite shr_record_of_loc_m; lia).
  rewrite shr_record_of_loc_m, Z.shiftr_div_pow2 by lia.
  split; [|lia].
  pose proof (digits2_pos_le m) as Hd.
  assert (Hp : 2 ^ Zpos p <= 2 ^ (Zpos (digits2_pos m) - 1))
    by (apply Z.pow_le_mono_r; lia).
  assert (0 < 2 ^ Zpos p) by (apply Z.pow_pos_nonneg; lia).
  apply Z.div_str_pos. lia.
Qed.

Lemma round_nearest_even_pos m l : 0 < m -> 0 < round_nearest_even m l.
Proof. intros H. destruct l as [|[]]; simpl; try lia. destruct (Z.even m); lia. Qed.

Lemma binary_round_aux_pos m e l :
  emin prec emax <= e ->
  gt_zero (binary_round_aux prec emax false (Zpos m) e l) = true.
Proof.
  intros He. unfold binary_round_aux.
  pose proof (shr_fexp_pos m e l He) as [H1 H2].
  destruct (shr_fexp prec emax (Zpos m) e l) as [mrs' e']. simpl fst in *; simpl snd in *.
  pose proof (round_nearest_even_pos (shr_m mrs') (loc_of_shr_record mrs') H1) as H3.
  destruct (round_nearest_even (shr_m mrs') (loc_of_shr_record mrs')) as [|m1|m1]; try lia.
  pose proof (shr_fexp_pos m1 e' loc_Exact H2) as [H4 H5].
  destruct (shr_fexp prec emax (Zpos m1) e' loc_Exact) as [mrs'' e'']. simpl fst in *; simpl snd in *.
  destruct (shr_m mrs'') as [|m2|m2]; try lia.
  destruct (e'' <=? emax - prec); reflexivity.
Qed.

Lemma num_of_Z_pos p : gt_zero (num_of_Z (Zpos p)) = true.
Proof.
  unfold num_of_Z, binary_normalize, binary_round.
  destruct (shl_align p 0 (fexp prec emax (Zpos (digits2_pos p) + 0))) as [mz ez] eqn:E.
  apply binary_round_aux_pos.
  unfold shl_align in E.
  destruct (fexp prec emax (Zpos (digits2_pos p) + 0) - 0) eqn:E2; inversion E; subst;
    unfold fexp, emin, prec, emax in *; lia.
Qed.

(** ** C6 and C7: the renderer *)

Lemma includes_unfold s p :
  includes s p = is_prefix p s || match s with [] => false | _ :: s' => includes s' p end.
Proof. destruct s; reflexivity. Qed.

Lemma is_prefix_app p s : is_prefix p (p ++ s) = true.
Proof.
  induction p as [|c p IH]; simpl; [reflexivity|].
  rewrite N.eqb_refl, IH. reflexivity.
Qed.

Lemma includes_app a p b : includes (a ++ p ++ b) p = true.
Proof.
  induction a as [|c a IH].
  - rewrite includes_unfold. simpl app. rewrite is_prefix_app. reflexivity.
  - rewrite includes_unfold.
    change ((c :: a) ++ p ++ b) with (c :: (a ++ p ++ b)). cbv iota.
    rewrite IH. apply orb_true_r.
Qed.

Lemma hasRecommendations_array props elems :
  get_own props (str "recommendations") = VArr elems ->
  hasRecommendations (VObj props) =
    Normal (match elems with [] => false | _ :: _ => true end).
Proof.
  intros H. unfold hasRecommendations. cbn [ToBoolean Get bind]. rewrite H.
  cbn [ToBoolean Get].
  change (jsstring_eqb (str "length") (str "length")) with true.
  cbn [bind ToNumber]. f_equal.
  destruct elems as [|e elems]; [reflexivity|].
  cbn [List.length]. rewrite Nat2Z.inj_succ.
  destruct (Z.succ (Z.of_nat (List.length elems))) as [|p|p] eqn:E; try lia.
  apply num_of_Z_pos.
Qed.

Lemma appendRecommendation_conforms t rec r i :
  conforms rec r ->
  appendRecommendation t rec i = Normal (t ++ block (S i) r).
Proof.
  destruct rec; try contradiction.
  intros (Hc & Hroi & Hy & Hp & Hpr & Hrisk & He).
  unfold appendRecommendation. cbn [Get bind].
  rewrite Hc, Hroi, Hy, Hp, Hpr, Hrisk, He.
  cbn [ToString ToNumber call_toFixed Nat.leb bind].
  unfold block, roiLine, yieldLine, riskLine.
  rewrite Nat2Z.inj_succ. unfold Z.succ.
  repeat rewrite <- app_assoc. reflexivity.
Qed.

Lemma forEach_conforms elems recs :
  Forall2 conforms elems recs ->
  forall i t, forEach elems i t = Normal (t ++ blocks (S i) recs).
Proof.
  induction 1 as [|rec r elems recs Hr _ IH]; intros i t; simpl.
  - rewrite app_nil_r. reflexivity.
  - rewrite (appendRecommendation_conforms _ _ _ _ Hr). cbn [bind].
    rewrite IH, <- app_assoc. reflexivity.
Qed.

Lemma blocks_nth recs : forall k i r,
  nth_error recs i = Some r ->
  exists a b, blocks k recs = a ++ block (k + i) r ++ b.
Proof.
  induction recs as [|r0 recs IH]; intros k i r H.
  - destruct i; discriminate.
  - destruct i as [|i]; simpl in H.
    + injection H as ->. exists [], (blocks (S k) recs).
      rewrite Nat.add_0_r. reflexivity.
    + destruct (IH (S k) i r H) as (a & b & E).
      exists (block k r0 ++ a), b. simpl. rewrite E, <- app_assoc.
      replace (S k + i)%nat with (k + S i)%nat by lia. reflexivity.
Qed.

Lemma includes_within s a p b c d :
  s = a ++ (c ++ p ++ d) ++ b -> includes s p = true.
Proof.
  intros ->.
  replace (a ++ (c ++ p ++ d) ++ b) with ((a ++ c) ++ p ++ (d ++ b))
    by (repeat rewrite <- app_assoc; reflexivity).
  apply includes_app.
Qed.

(** C6.  For a payload whose [recommendations] is a non-empty array of
    records, the renderer appends a single message of the bot to the
    transcript; that message contains, for the record at each rank [i], the
    line [<i>. <Crop> - <ROI to 1 decimal>% ROI], the line
    [Yield: <yield to 1 decimal> tons | Price: $<price to 2 decimals> |
    Profit: $<profit to 2 decimals>] and the line
    [Pest Risk: <score*100 to 1 decimal>%]; for the Maize record these are
    [1. Maize - 12.3% ROI], [Yield: 5.7 tons | Price: $200.50 | Profit:
    $150.26] and [Pest Risk: 20.0%].  For an absent or empty
    [recommendations] it appends the single message
    [No recommendations found for the provided data.]. *)
Theorem renderer_formats_recommendations :
  (forall props elems recs st,
     get_own props (str "recommendations") = VArr elems ->
     Forall2 conforms elems recs ->
     recs <> [] ->
     (exists st',
        displayRecommendations (VObj props) st = Normal st' /\
        messages st' =
          messages st
          ++ [ {| sender := bot; text := recommendationsText recs |} ] /\
        inputs st' = inputs st /\
        isVisible st' = isVisible st)
     /\ forall i r,
          nth_error recs i = Some r ->
          includes (recommendationsText recs) (roiLine (S i) r) = true /\
          includes (recommendationsText recs) (yieldLine r) = true /\
          includes (recommendationsText recs) (riskLine r) = true)
  /\ (forall data st,
        without_recommendations data ->
        exists st',
          displayRecommendations data st = Normal st' /\
          messages st' =
            messages st
            ++ [ {| sender := bot;
                    text := str "No recommendations found for the provided data." |} ] /\
          inputs st' = inputs st /\
          isVisible st' = isVisible st)
  /\ (conforms (to_value maize) maize /\
      roiLine 1 maize = str "1. Maize - 12.3% ROI" /\
      yieldLine maize
        = str "Yield: 5.7 tons | Price: $200.50 | Profit: $150.26" /\
      riskLine maize = str "Pest Risk: 20.0%").
Proof.
  split; [|split].
  - intros props elems recs st Hget Hall Hne. split.
    + exists (setMessages
                (fun prev =>
                   prev ++ [ {| sender := bot;
                                text := recommendationsText recs |} ]) st).
      split; [|split; [|split]]; [|reflexivity..].
      unfold displayRecommendations.
      rewrite (hasRecommendations_array _ _ Hget).
      destruct Hall as [|rec r elems recs Hr Hall]; [congruence|].
      cbn [bind Get]. rewrite Hget.
      rewrite (forEach_conforms _ _ (Forall2_cons _ _ Hr Hall)).
      reflexivity.
    + intros i r Hi.
      destruct (blocks_nth recs 1 i r Hi) as (a & b & E).
      unfold recommendationsText. rewrite E. simpl Nat.add.
      split; [|split].
      * apply (includes_within _ (str "Here are the top recommendations:" ++ LF ++ a)
                 _ b [] (LF ++ indent ++ yieldLine r ++ LF ++ indent ++ riskLine r
                        ++ LF ++ indent ++ str "Summary: " ++ Explanation r
                        ++ LF ++ LF)).
        unfold block. repeat rewrite <- app_assoc. reflexivity.
      * apply (includes_within _ (str "Here are the top recommendations:" ++ LF ++ a)
                 _ b (roiLine (S i) r ++ LF ++ indent)
                 (LF ++ indent ++ riskLine r
                  ++ LF ++ indent ++ str "Summary: " ++ Explanation r
                  ++ LF ++ LF)).
        unfold block. repeat rewrite <- app_assoc. reflexivity.
      * apply (includes_within _ (str "Here are the top recommendations:" ++ LF ++ a)
                 _ b (roiLine (S i) r ++ LF ++ indent ++ yieldLine r ++ LF ++ indent)
                 (LF ++ indent ++ str "Summary: " ++ Explanation r ++ LF ++ LF)).
        unfold block. repeat rewrite <- app_assoc. reflexivity.
  - intros data st H.
    exists (setMessages (fun prev => prev ++ [noRecommendations]) st).
    split; [|split; [|split]]; try reflexivity.
    destruct H as [->|[->|(props & -> & [H|[H|H]])]]; try reflexivity;
      unfold displayRecommendations, hasRecommendations;
      cbn [ToBoolean Get bind]; rewrite H; reflexivity.
  - split; [|split; [|split]]; vm_compute; try reflexivity.
    repeat split.
Qed.

Lemma renderer_formats_recommendations_witness :
  exists st',
    displayRecommendations (payload (VArr [to_value maize])) initial
      = Normal st' /\
    map (fun m => (sender m, split_on 10%N (text m))) (messages st') =
      [ (bot, [welcome]);
        (bot, [ str "Here are the top recommendations:";
                str "1. Maize - 12.3% ROI";
                indent ++ str "Yield: 5.7 tons | Price: $200.50 | Profit: $150.26";
                indent ++ str "Pest Risk: 20.0%";
                indent ++ str "Summary: stable";
                str ""; str "" ]) ] /\
    includes (recommendationsText [maize]) (roiLine 1 maize) = true.
Proof.
  assert (Hc : conforms (to_value maize) maize)
    by (split; [|split; [|split; [|split; [|split; [|split]]]]];
        vm_compute; reflexivity).
  assert (Hne : [maize] <> []) by discriminate.
  destruct (proj1 renderer_formats_recommendations
              [(str "recommendations", VArr [to_value maize])]
              [to_value maize] [maize] initial eq_refl
              (Forall2_cons _ _ Hc (Forall2_nil _)) Hne)
    as [(st' & Hd & Hm & _) Hi].
  exists st'. split; [exact Hd|]. split.
  - rewrite Hm. vm_compute. reflexivity.
  - exact (proj1 (Hi 0%nat maize eq_refl)).
Defined.

(** The text rendered for the Maize record, line by line. *)
Example maize_rendering :
  split_on 10%N (recommendationsText [maize]) =
    [ str "Here are the top recommendations:";
      str "1. Maize - 12.3% ROI";
      indent ++ str "Yield: 5.7 tons | Price: $200.50 | Profit: $150.26";
      indent ++ str "Pest Risk: 20.0%";
      indent ++ str "Summary: stable";
      str ""; str "" ].
Proof. vm_compute. reflexivity. Qed.

Lemma ToString_primitive v :
  primitive v = true -> exists s, ToString v = Normal s.
Proof. destruct v; simpl; try discriminate; eauto. Qed.

Lemma ToNumber_primitive v :
  primitive v = true -> exists x, ToNumber v = Normal x.
Proof. destruct v; simpl; try discriminate; eauto. Qed.

Lemma has_number_own props key :
  has_number (VObj props) key = true ->
  exists x, get_own props key = VNum x.
Proof.
  unfold has_number. cbn [Get].
  destruct (get_own props key); try discriminate; eauto.
Qed.

Lemma appendRecommendation_formattable t rec i :
  formattable rec = true ->
  exists t', appendRecommendation t rec i = Normal t'.
Proof.
  destruct rec as [| | | | | |props]; try discriminate.
  unfold formattable, fixedFields. cbn [forallb].
  rewrite !andb_true_iff.
  intros [[[(Hroi & Hy & Hp & Hpr & _) Hc] Hrisk] He].
  apply has_number_own in Hroi, Hy, Hp, Hpr.
  destruct Hroi as [roi Hroi], Hy as [y Hy], Hp as [p Hp], Hpr as [pr Hpr].
  apply ToString_primitive in Hc, He. apply ToNumber_primitive in Hrisk.
  destruct Hc as [c Hc], He as [e He], Hrisk as [risk Hrisk].
  unfold appendRecommendation. cbn [Get bind].
  rewrite Hc, Hroi, Hy, Hp, Hpr, Hrisk, He.
  cbn [ToNumber call_toFixed Nat.leb bind]. eauto.
Qed.

Lemma forEach_formattable elems :
  forallb formattable elems = true ->
  forall i t, exists t', forEach elems i t = Normal t'.
Proof.
  induction elems as [|rec elems IH]; intros H i t; simpl.
  - eauto.
  - simpl in H. apply andb_true_iff in H. destruct H as [Hr Hs].
    destruct (appendRecommendation_formattable t rec i Hr) as [t1 E].
    rewrite E. cbn [bind]. apply IH. exact Hs.
Qed.

Lemma appendRecommendation_needs_numbers t rec i t' :
  appendRecommendation t rec i = Normal t' ->
  forallb (has_number rec) fixedFields = true.
Proof.
  unfold appendRecommendation, fixedFields, has_number. cbn [forallb].
  destruct (Get rec (str "Crop")) as [crop|]; cbn [bind]; try discriminate.
  destruct (ToString crop); cbn [bind]; try discriminate.
  destruct (Get rec (str "Estimated_ROI_Percentage")) as [roi|];
    cbn [bind]; try discriminate.
  destruct roi; cbn [call_toFixed Nat.leb bind]; try discriminate.
  destruct (Get rec (str "Predicted_Yield")) as [y|];
    cbn [bind]; try discriminate.
  destruct y; cbn [call_toFixed Nat.leb bind]; try discriminate.
  destruct (Get rec (str "Predicted_Price")) as [p|];
    cbn [bind]; try discriminate.
  destruct p; cbn [call_toFixed Nat.leb bind]; try discriminate.
  destruct (Get rec (str "Estimated_Profit")) as [pr|];
    cbn [bind]; try discriminate.
  destruct pr; cbn [call_toFixed Nat.leb bind]; try discriminate.
  reflexivity.
Qed.

Lemma forEach_unformattable elems :
  Exists unformattable elems ->
  forall i t, throws (forEach elems i t) = true.
Proof.
  induction elems as [|rec elems IH]; intros H i t.
  - inversion H.
  - simpl. destruct (appendRecommendation t rec i) as [t1|e] eqn:E;
      cbn [bind]; [|reflexivity].
    inversion H as [? ? Hu|? ? Hs]; subst.
    + apply appendRecommendation_needs_numbers in E.
      unfold unformattable in Hu. congruence.
    + apply IH. exact Hs.
Qed.

Lemma hasRecommendations_falsy data :
  ToBoolean data = false -> hasRecommendations data = Normal false.
Proof. intros H. unfold hasRecommendations. rewrite H. reflexivity. Qed.

Lemma displayRecommendations_none data st :
  hasRecommendations data = Normal false ->
  displayRecommendations data st =
    Normal (setMessages (fun prev => prev ++ [noRecommendations]) st).
Proof. intros H. unfold displayRecommendations. rewrite H. reflexivity. Qed.

(** C7, as the code has it.  The renderer returns normally, appending one
    message of the bot, on every payload that is falsy, has no truthy
    [recommendations], or has for [recommendations] an array of objects
    with numbers in the four fields it formats with [toFixed] and nothing
    structured in [Crop], [Pest_Risk_Score] and [Explanation].  It does
    throw - a TypeError, the state untouched - as soon as one record of the
    array lacks a number in [Estimated_ROI_Percentage], [Predicted_Yield],
    [Predicted_Price] or [Estimated_Profit]. *)
Theorem renderer_throws_exactly_on_unformattable_records :
  (forall data st,
     renderable data = true ->
     exists m,
       sender m = bot /\
       displayRecommendations data st =
         Normal (setMessages (fun prev => prev ++ [m]) st))
  /\ (forall props elems st,
        get_own props (str "recommendations") = VArr elems ->
        Exists unformattable elems ->
        throws (displayRecommendations (VObj props) st) = true).
Proof.
  split.
  - intros data st H. unfold renderable in H.
    destruct (ToBoolean data) eqn:Hb.
    + assert (Hnone : hasRecommendations data = Normal false ->
                exists m, sender m = bot /\
                  displayRecommendations data st =
                    Normal (setMessages (fun prev => prev ++ [m]) st)).
      { intros E. exists noRecommendations. split; [reflexivity|].
        apply displayRecommendations_none. exact E. }
      destruct data as [| |b|x|s|elems|props]; try discriminate Hb;
        try (apply Hnone; unfold hasRecommendations; rewrite Hb;
             reflexivity).
      destruct (get_own props (str "recommendations")) as [| |b|x|s|elems|ps]
        eqn:Hget;
        try (apply Hnone; unfold hasRecommendations; rewrite Hb;
             cbn [Get bind]; rewrite Hget;
             apply negb_true_iff in H; rewrite H; reflexivity).
      unfold displayRecommendations.
      rewrite (hasRecommendations_array _ _ Hget).
      destruct elems as [|rec elems].
      * exists noRecommendations. split; reflexivity.
      * cbn [bind Get]. rewrite Hget.
        destruct (forEach_formattable _ H 0%nat
                    (str "Here are the top recommendations:" ++ LF)) as [t E].
        rewrite E. cbn [bind]. eexists. split; [|reflexivity]. reflexivity.
    + exists noRecommendations. split; [reflexivity|].
      apply displayRecommendations_none, hasRecommendations_falsy. exact Hb.
  - intros props elems st Hget Hex.
    unfold displayRecommendations.
    rewrite (hasRecommendations_array _ _ Hget).
    destruct elems as [|rec elems]; [inversion Hex|].
    cbn [bind Get]. rewrite Hget.
    pose proof (forEach_unformattable _ Hex 0%nat
                  (str "Here are the top recommendations:" ++ LF)) as Ht.
    destruct (forEach (rec :: elems) 0
                (str "Here are the top recommendations:" ++ LF));
      [discriminate Ht|reflexivity].
Qed.

Lemma renderer_throws_exactly_on_unformattable_records_witness :
  (renderable (payload (VArr [to_value maize])) = true /\
   exists m,
     sender m = bot /\
     displayRecommendations (payload (VArr [to_value maize])) initial =
       Normal (setMessages (fun prev => prev ++ [m]) initial))
  /\ (Exists unformattable [VObj []] /\
      throws (displayRecommendations empty_record_payload initial) = true).
Proof.
  assert (H1 : renderable (payload (VArr [to_value maize])) = true)
    by (vm_compute; reflexivity).
  assert (H2 : Exists unformattable [VObj []])
    by (apply Exists_cons_hd; vm_compute; reflexivity).
  split; split; [exact H1| |exact H2|].
  - exact (proj1 renderer_throws_exactly_on_unformattable_records _ initial H1).
  - exact (proj2 renderer_throws_exactly_on_unformattable_records
             [(str "recommendations", VArr [VObj []])] [VObj []] initial
             eq_refl H2).
Defined.

(** C7 as stated fails: the payload [{"recommendations": [{}]}] makes the
    renderer throw, on reading [toFixed] from the missing
    [Estimated_ROI_Percentage]. *)
Lemma renderer_throws_on_empty_record :
  displayRecommendations empty_record_payload initial =
    Throw (TypeError "Cannot read properties of undefined (reading 'toFixed')")
  /\ throws (displayRecommendations empty_record_payload initial) = true.
Proof. split; vm_compute; reflexivity. Qed.

(* ================================================================== *)
(** * Further properties of the component *)
(* ================================================================== *)

Import Markup Vocabulary.

(** ** What is sent, and when *)

Lemma present_number v :
  absent_or_NaN v = false -> exists x, v = Some x /\ isNaN x = false.
Proof. destruct v as [x|]; simpl; [eauto|discriminate]. Qed.

Lemma inputs_all_present st :
  existsb absent_or_NaN (inputs st) = false ->
  exists pH moisture temp rainfall,
    inputs st = [Some pH; Some moisture; Some temp; Some rainfall] /\
    isNaN pH = false /\ isNaN moisture = false /\
    isNaN temp = false /\ isNaN rainfall = false /\
    dataOf st = dataToSend_of pH moisture temp rainfall.
Proof.
  destruct st as [v ms a b c d]. unfold inputs, dataOf.
  cbn [soilpH soilMoisture temperatureC rainfallMm existsb].
  rewrite !orb_false_iff. intros (Ha & Hb & Hc & Hd & _).
  apply present_number in Ha, Hb, Hc, Hd.
  destruct Ha as (pH & -> & Ha), Hb as (m & -> & Hb), Hc as (t & -> & Hc),
    Hd as (r & -> & Hd).
  exists pH, m, t, r. repeat split; assumption.
Qed.

(** X1.  [handleGetRecommendations] calls [sendDataToBackend] exactly when
    each of the four fields holds a number other than NaN, and then with
    those four numbers under the four field names; otherwise some field is
    absent or NaN. *)
Theorem submission_needs_four_numbers :
  forall st,
    match snd (handleGetRecommendations st) with
    | Some dataToSend =>
        exists pH moisture temp rainfall,
          inputs st = [Some pH; Some moisture; Some temp; Some rainfall] /\
          isNaN pH = false /\ isNaN moisture = false /\
          isNaN temp = false /\ isNaN rainfall = false /\
          dataToSend = dataToSend_of pH moisture temp rainfall
    | None => existsb absent_or_NaN (inputs st) = true
    end.
Proof.
  intros st. rewrite handleGetRecommendations_cases.
  destruct (existsb absent_or_NaN (inputs st)) eqn:E; cbn [snd].
  - reflexivity.
  - destruct (inputs_all_present st E) as (a & b & c & d & H).
    exists a, b, c, d. exact H.
Qed.

Lemma body_of_numbers pH moisture temp rainfall :
  body (sendDataToBackend (dataToSend_of pH moisture temp rainfall)) =
    Some (json_text "{'farmInputs':{'Soil_pH':" ++ json_number pH
          ++ json_text ",'Soil_Moisture':" ++ json_number moisture
          ++ json_text "},'weatherForecast':{'Temperature_C':"
          ++ json_number temp
          ++ json_text ",'Rainfall_mm':" ++ json_number rainfall
          ++ json_text "}}").
Proof.
  unfold sendDataToBackend, dataToSend_of, requestObject.
  cbn [body get_own jsstring_eqb str].
  cbn -[Number_toString isFinite].
  unfold json_number.
  repeat (rewrite <- ?app_assoc; cbn [app]).
  reflexivity.
Qed.

(** X2.  Whatever [handleGetRecommendations] hands to
    [sendDataToBackend], the request is a POST of JSON to the fixed
    endpoint whose body holds the four fields of the form, a finite one
    with its digits and an infinite one as [null]. *)
Theorem submitted_body_holds_the_form :
  forall st dataToSend,
    snd (handleGetRecommendations st) = Some dataToSend ->
    exists pH moisture temp rainfall,
      inputs st = [Some pH; Some moisture; Some temp; Some rainfall] /\
      sendDataToBackend dataToSend =
        {| url := str "http://127.0.0.1:5000/get_crop_recommendations";
           method := str "POST";
           headers := [ (str "Content-Type", str "application/json") ];
           body :=
             Some (json_text "{'farmInputs':{'Soil_pH':" ++ json_number pH
                   ++ json_text ",'Soil_Moisture':" ++ json_number moisture
                   ++ json_text "},'weatherForecast':{'Temperature_C':"
                   ++ json_number temp
                   ++ json_text ",'Rainfall_mm':" ++ json_number rainfall
                   ++ json_text "}}") |} /\
      (forall neg, json_number (S754_infinity neg) = str "null").
Proof.
  intros st d H. rewrite handleGetRecommendations_cases in H.
  destruct (existsb absent_or_NaN (inputs st)) eqn:E; cbn [snd] in H;
    [discriminate H|].
  injection H as <-.
  destruct (inputs_all_present st E) as (a & b & c & e & Hi & _ & _ & _ & _ & Hd).
  exists a, b, c, e. split; [exact Hi|]. split; [|reflexivity].
  rewrite Hd.
  pose proof (body_of_numbers a b c e) as Hb.
  unfold sendDataToBackend in *. cbn [body] in Hb. rewrite Hb. reflexivity.
Qed.

Lemma submitted_body_holds_the_form_witness :
  snd (handleGetRecommendations filled_in)
    = Some (dataToSend_of sample_pH sample_moisture sample_temp sample_rainfall)
  /\ body (sendDataToBackend
             (dataToSend_of sample_pH sample_moisture sample_temp
                            sample_rainfall)) =
       Some (json_text
         "{'farmInputs':{'Soil_pH':6.5,'Soil_Moisture':40},'weatherForecast':{'Temperature_C':25,'Rainfall_mm':100}}").
Proof.
  assert (H : snd (handleGetRecommendations filled_in)
    = Some (dataToSend_of sample_pH sample_moisture sample_temp sample_rainfall))
    by (vm_compute; reflexivity).
  split; [exact H|].
  destruct (submitted_body_holds_the_form filled_in _ H)
    as (a & b & c & e & Hi & Hr & _).
  rewrite Hr. cbn [body].
  assert (Hin : inputs filled_in
                = [Some sample_pH; Some sample_moisture; Some sample_temp;
                   Some sample_rainfall]) by (vm_compute; reflexivity).
  rewrite Hin in Hi. injection Hi as <- <- <- <-.
  vm_compute. reflexivity.
Defined.

(** ** What settling a request does to the state *)

Lemma displayRecommendations_message data st :
  displayRecommendations data st =
    m <- messageFor data ;;
    Normal (setMessages (fun prev => prev ++ [m]) st).
Proof.
  unfold displayRecommendations, messageFor.
  destruct (hasRecommendations data) as [[|]|e]; cbn [bind]; try reflexivity.
  destruct (Get data (str "recommendations")) as [r|e]; cbn [bind];
    try reflexivity.
  destruct r; cbn [bind]; try reflexivity.
  match goal with
  | |- context [forEach ?a ?b ?c] => destruct (forEach a b c) as [t|e]
  end; reflexivity.
Qed.

Lemma messageFor_bot data m : messageFor data = Normal m -> sender m = bot.
Proof.
  unfold messageFor.
  destruct (hasRecommendations data) as [[|]|e]; cbn [bind]; try discriminate.
  - destruct (Get data (str "recommendations")) as [r|e]; cbn [bind];
      try discriminate.
    destruct r; cbn [bind]; try discriminate.
    match goal with
    | |- context [forEach ?a ?b ?c] => destruct (forEach a b c) as [t|e]
    end; cbn [bind]; try discriminate.
    intros H; injection H as <-. reflexivity.
  - intros H; injection H as <-. reflexivity.
Qed.

(** The message a settled request appends. *)
Lemma settle_message r st :
  exists m,
    sender m = bot /\
    ((settle r st = setMessages (fun prev => prev ++ [m]) st) \/
     (settle r st =
        setRainfallMm None
          (setTemperatureC None
             (setSoilMoisture None
                (setSoilpH None
                   (setMessages (fun prev => prev ++ [m]) st)))) /\
      exists status data,
        r = FetchResolved status (JsonResolved data) /\ ok status = true /\
        messageFor data = Normal m)).
Proof.
  destruct (settle_cases r st)
    as [[e He]|(status & data & st1 & Hr & Hok & Hd & Hs)].
  - exists (errorMessage e). split; [reflexivity|]. left. exact He.
  - rewrite displayRecommendations_message in Hd.
    destruct (messageFor data) as [m|e] eqn:Hm; cbn [bind] in Hd;
      [|discriminate Hd].
    injection Hd as <-.
    exists m. split; [exact (messageFor_bot _ _ Hm)|].
    right. split; [exact Hs|]. exists status, data. auto.
Qed.

(** X3.  However a request settles, exactly one message is appended, its
    sender is the bot, the visibility flag is untouched, and the four
    fields are either all left as they were or all reset to absent. *)
Theorem settling_appends_one_bot_message :
  forall r st,
    exists m,
      sender m = bot /\
      messages (settle r st) = messages st ++ [m] /\
      isVisible (settle r st) = isVisible st /\
      (inputs (settle r st) = inputs st \/ inputs (settle r st) = all_absent).
Proof.
  intros r st. destruct (settle_message r st) as (m & Hb & [H|[H _]]);
    exists m; rewrite H; (split; [exact Hb|]); split; try reflexivity;
    split; try reflexivity; [left|right]; reflexivity.
Qed.

Lemma handleGetRecommendations_inputs st st' :
  inputs st' = inputs st ->
  snd (handleGetRecommendations st') = snd (handleGetRecommendations st).
Proof.
  intros H. rewrite !handleGetRecommendations_cases, H.
  destruct (existsb absent_or_NaN (inputs st)); cbn [snd]; [reflexivity|].
  f_equal. destruct st, st'. unfold inputs in H.
  cbn [soilpH soilMoisture temperatureC rainfallMm] in H.
  injection H as -> -> -> ->. reflexivity.
Qed.

Lemma inputs_after_submit st :
  inputs (fst (handleGetRecommendations st)) = inputs st.
Proof.
  rewrite handleGetRecommendations_cases.
  destruct (existsb absent_or_NaN (inputs st)); reflexivity.
Qed.

(** X4.  After a request has failed, a second click on the send button
    passes the same four values to [sendDataToBackend] as the first: the
    form is still filled in. *)
Theorem retry_after_failure_sends_the_same :
  forall st dataToSend r msg,
    snd (handleGetRecommendations st) = Some dataToSend ->
    RequestFailure r msg ->
    snd (handleGetRecommendations
           (settle r (fst (handleGetRecommendations st))))
      = Some dataToSend.
Proof.
  intros st d r msg H Hf. rewrite <- H.
  apply handleGetRecommendations_inputs.
  rewrite <- (inputs_after_submit st).
  set (st1 := fst (handleGetRecommendations st)).
  destruct Hf as [error|status json Hs|status error Hs]; unfold settle;
    cbn [onResponse bind].
  - reflexivity.
  - replace (ok status) with false; [reflexivity|].
    unfold ok. symmetry. apply andb_false_iff.
    destruct Hs; [left; apply Z.leb_gt|right; apply Z.leb_gt]; lia.
  - replace (ok status) with true; [reflexivity|].
    unfold ok. symmetry. apply andb_true_iff. split; apply Z.leb_le; lia.
Qed.

Lemma retry_after_failure_sends_the_same_witness :
  snd (handleGetRecommendations
         (settle (FetchRejected (Error (str "Failed to fetch")))
                 (fst (handleGetRecommendations filled_in))))
    = Some (dataToSend_of sample_pH sample_moisture sample_temp sample_rainfall).
Proof.
  apply (retry_after_failure_sends_the_same filled_in _ _
           (str "Failed to fetch")).
  - vm_compute. reflexivity.
  - exact (transport_failure (Error (str "Failed to fetch"))).
Defined.

(** X5.  After a 2xx response that the renderer has shown, a click on the
    send button sends nothing and asks for all four fields by name. *)
Theorem resubmit_after_success_asks_for_all_fields :
  forall status data st st1,
    ok status = true ->
    displayRecommendations data st = Normal st1 ->
    handleGetRecommendations
      (settle (FetchResolved status (JsonResolved data)) st) =
      (setMessages
         (fun prev =>
            prev ++ [ {| sender := bot;
                         text := str "Please enter valid values for: Soil pH, Soil Moisture, Temperature C, Rainfall mm." |} ])
         (settle (FetchResolved status (JsonResolved data)) st),
       None).
Proof.
  intros status data st st1 Hok Hd.
  assert (Hs : settle (FetchResolved status (JsonResolved data)) st =
               setRainfallMm None
                 (setTemperatureC None
                    (setSoilMoisture None (setSoilpH None st1)))).
  { unfold settle. cbn [onResponse]. rewrite Hok. cbn [negb bind].
    unfold onData. rewrite Hd. reflexivity. }
  rewrite Hs, handleGetRecommendations_cases.
  destruct st1 as [v ms a b c d]. reflexivity.
Qed.

Lemma resubmit_after_success_asks_for_all_fields_witness :
  snd (handleGetRecommendations
         (settle (FetchResolved 200 (JsonResolved (payload (VArr []))))
                 filled_in)) = None.
Proof.
  rewrite (resubmit_after_success_asks_for_all_fields 200
             (payload (VArr [])) filled_in
             (setMessages (fun prev => prev ++ [noRecommendations]) filled_in)
             eq_refl eq_refl).
  reflexivity.
Defined.

(** ** Visibility is independent of everything else *)

Lemma settle_toggle r st :
  settle r (toggleChatbot st) = toggleChatbot (settle r st).
Proof.
  unfold settle. destruct (onResponse r) as [data|e]; cbn [bind];
    [|reflexivity].
  unfold onData. rewrite !displayRecommendations_message.
  destruct (messageFor data); reflexivity.
Qed.

(** X6.  A click on the icon commutes with every other event: whether the
    panel is shown or hidden changes nothing in what an edit, a click on
    the send button or a settling request does, and the transcript is
    written while the panel is hidden just as while it is shown. *)
Theorem toggle_commutes_with_every_event :
  forall ev st,
    dispatch ev (toggleChatbot st) = toggleChatbot (dispatch ev st).
Proof.
  intros [|field text| |r] st; cbn [dispatch].
  - reflexivity.
  - destruct field; reflexivity.
  - rewrite !handleGetRecommendations_cases.
    change (inputs (toggleChatbot st)) with (inputs st).
    destruct (existsb absent_or_NaN (inputs st)); reflexivity.
  - apply settle_toggle.
Qed.

Lemma isVisible_dispatch ev st :
  isVisible (dispatch ev st) =
    match ev with
    | ClickIcon => negb (isVisible st)
    | _ => isVisible st
    end.
Proof.
  destruct ev as [|field text| |r]; cbn [dispatch].
  - reflexivity.
  - destruct field; reflexivity.
  - rewrite handleGetRecommendations_cases.
    destruct (existsb absent_or_NaN (inputs st)); reflexivity.
  - destruct (settle_message r st) as (m & _ & [H|[H _]]); rewrite H;
      reflexivity.
Qed.

Lemma isVisible_run evs : forall st,
  isVisible (run evs st) = xorb (isVisible st) (Nat.odd (iconClicks evs)).
Proof.
  induction evs as [|ev evs IH]; intros st.
  - simpl. rewrite xorb_false_r. reflexivity.
  - change (run (ev :: evs) st) with (run evs (dispatch ev st)).
    rewrite IH, isVisible_dispatch.
    destruct ev; try reflexivity.
    change (iconClicks (ClickIcon :: evs)) with (S (iconClicks evs)).
    rewrite Nat.odd_succ, <- Nat.negb_odd.
    destruct (isVisible st), (Nat.odd (iconClicks evs)); reflexivity.
Qed.

(** X7.  After any sequence of events the panel is shown exactly when the
    icon has been clicked an odd number of times; nothing else opens or
    closes it. *)
Theorem panel_shown_after_odd_clicks :
  forall evs,
    isVisible (run evs initial) = Nat.odd (iconClicks evs) /\
    (view (run evs initial) = None <-> Nat.even (iconClicks evs) = true).
Proof.
  intros evs.
  assert (H : isVisible (run evs initial) = Nat.odd (iconClicks evs)).
  { rewrite isVisible_run. reflexivity. }
  split; [exact H|].
  unfold view. rewrite H, <- Nat.negb_odd.
  destruct (Nat.odd (iconClicks evs)); simpl; split; congruence.
Qed.

(** ** The shape of the transcript *)

Lemma summaries_answered_bot ms m :
  summaries_answered ms = true -> sender m = bot ->
  summaries_answered (ms ++ [m]) = true.
Proof.
  intros H Hm. induction ms as [|m0 ms IH]; cbn [app summaries_answered] in *.
  - rewrite Hm. reflexivity.
  - destruct (sender m0); [|apply IH; exact H].
    apply andb_true_iff in H. destruct H as [H Hs].
    apply andb_true_iff in H. destruct H as [Hp Hn].
    rewrite Hp, (IH Hs).
    destruct ms as [|next ms]; [discriminate Hn|].
    cbn [app]. rewrite Hn. reflexivity.
Qed.

Lemma summaries_answered_pair ms u :
  summaries_answered ms = true -> sender u = user ->
  is_prefix (str "My farm data: pH: ") (text u) = true ->
  summaries_answered (ms ++ [u; fetching]) = true.
Proof.
  intros H Hu Hp. induction ms as [|m0 ms IH]; cbn [app summaries_answered] in *.
  - rewrite Hu, Hp. reflexivity.
  - destruct (sender m0); [|apply IH; exact H].
    apply andb_true_iff in H. destruct H as [H Hs].
    apply andb_true_iff in H. destruct H as [Hp0 Hn].
    rewrite Hp0, (IH Hs).
    destruct ms as [|next ms]; [discriminate Hn|].
    cbn [app]. rewrite Hn. reflexivity.
Qed.

Lemma summaries_answered_dispatch ev st :
  summaries_answered (messages st) = true ->
  summaries_answered (messages (dispatch ev st)) = true.
Proof.
  intros H. destruct ev as [|field text| |r]; cbn [dispatch].
  - exact H.
  - rewrite messages_setField. exact H.
  - rewrite handleGetRecommendations_cases.
    destruct (existsb absent_or_NaN (inputs st)); cbn [fst setMessages messages].
    + apply summaries_answered_bot; [exact H|reflexivity].
    + apply summaries_answered_pair; [exact H|reflexivity|].
      unfold summaryOf. cbn [text]. apply is_prefix_app.
  - destruct (settle_message r st) as (m & Hb & [E|[E _]]); rewrite E;
      cbn [setRainfallMm setTemperatureC setSoilMoisture setSoilpH
           setMessages messages];
      apply summaries_answered_bot; assumption.
Qed.

(** X8.  In every reachable state each message of the user is a summary
    opening with [My farm data: pH: ] and is directly followed by the
    bot's [Fetching recommendations...]; no other message of the user is
    ever written. *)
Theorem every_summary_is_followed_by_the_placeholder :
  forall st, reachable st -> summaries_answered (messages st) = true.
Proof.
  intros st H. induction H as [|ev st _ IH].
  - reflexivity.
  - apply summaries_answered_dispatch. exact IH.
Qed.

Lemma reachable_run evs : forall st, reachable st -> reachable (run evs st).
Proof.
  induction evs as [|ev evs IH]; intros st H; [exact H|].
  apply (IH (dispatch ev st)), reachable_dispatch, H.
Qed.

Lemma every_summary_is_followed_by_the_placeholder_witness :
  reachable (dispatch ClickSend filled_in) /\
  map sender (messages (dispatch ClickSend filled_in)) = [bot; user; bot] /\
  summaries_answered (messages (dispatch ClickSend filled_in)) = true.
Proof.
  assert (H : reachable (dispatch ClickSend filled_in))
    by (apply reachable_dispatch, reachable_run, reachable_initial).
  split; [exact H|]. split; [vm_compute; reflexivity|].
  exact (every_summary_is_followed_by_the_placeholder _ H).
Defined.

(** ** The lines of a bubble *)

Lemma split_on_cons c s : exists h t, split_on c s = h :: t.
Proof.
  induction s as [|x r [h [t IH]]]; simpl; [eauto|].
  destruct (N.eqb x c); [eauto|]. rewrite IH. eauto.
Qed.

Lemma join_cons sep x h t :
  join sep (x :: h :: t) = x ++ sep ++ join sep (h :: t).
Proof. reflexivity. Qed.

Lemma join_split_on c s : join [c] (split_on c s) = s.
Proof.
  induction s as [|x r IH]; simpl; [reflexivity|].
  destruct (split_on_cons c r) as (h & t & E).
  destruct (N.eqb x c) eqn:Ex.
  - apply N.eqb_eq in Ex. subst x.
    rewrite E, join_cons, <- E, IH. reflexivity.
  - rewrite E in *. destruct t as [|h' t].
    + simpl in *. rewrite IH. reflexivity.
    + rewrite join_cons. rewrite join_cons in IH.
      rewrite <- IH. reflexivity.
Qed.

Lemma split_on_length c s :
  List.length (split_on c s) = S (List.length (filter (N.eqb c) s)).
Proof.
  induction s as [|x r IH]; simpl; [reflexivity|].
  rewrite (N.eqb_sym c x).
  destruct (N.eqb x c); simpl.
  - rewrite IH. reflexivity.
  - destruct (split_on c r); simpl in *; [discriminate IH|exact IH].
Qed.

Lemma split_on_free c s :
  forallb (fun line => negb (existsb (N.eqb c) line)) (split_on c s) = true.
Proof.
  induction s as [|x r IH]; simpl; [reflexivity|].
  destruct (N.eqb x c) eqn:Ex; simpl; [exact IH|].
  destruct (split_on c r) as [|h t]; simpl in *.
  - rewrite (N.eqb_sym c x), Ex. reflexivity.
  - rewrite (N.eqb_sym c x), Ex. exact IH.
Qed.

Lemma fragments_cons line rest i n :
  fragments (line :: rest) i n =
    Line line :: (if Nat.ltb i (n - 1) then [Br] else [])
    ++ fragments rest (S i) n.
Proof. reflexivity. Qed.

Lemma fragments_shown lines : forall i,
  lines <> [] ->
  shown (fragments lines i (i + List.length lines)) = join [10%N] lines.
Proof.
  induction lines as [|line rest IH]; intros i H; [congruence|].
  rewrite fragments_cons.
  replace (i + List.length (line :: rest))%nat
    with (S i + List.length rest)%nat by (simpl; lia).
  destruct rest as [|line' rest].
  - replace (Nat.ltb i (S i + List.length (A:=jsstring) [] - 1)) with false
      by (symmetry; apply Nat.ltb_ge; simpl; lia).
    simpl. rewrite app_nil_r. reflexivity.
  - replace (Nat.ltb i (S i + List.length (line' :: rest) - 1)) with true
      by (symmetry; apply Nat.ltb_lt; simpl; lia).
    rewrite join_cons. cbn [app shown]. rewrite IH by discriminate.
    reflexivity.
Qed.

Lemma fragments_brs lines : forall i,
  List.length (filter is_br (fragments lines i (i + List.length lines)))
    = (List.length lines - 1)%nat.
Proof.
  induction lines as [|line rest IH]; intros i; [reflexivity|].
  rewrite fragments_cons.
  replace (i + List.length (line :: rest))%nat
    with (S i + List.length rest)%nat by (simpl; lia).
  destruct rest as [|line' rest].
  - replace (Nat.ltb i (S i + List.length (A:=jsstring) [] - 1)) with false
      by (symmetry; apply Nat.ltb_ge; simpl; lia).
    reflexivity.
  - replace (Nat.ltb i (S i + List.length (line' :: rest) - 1)) with true
      by (symmetry; apply Nat.ltb_lt; simpl; lia).
    cbn [app filter is_br List.length]. rewrite IH. simpl. lia.
Qed.

Lemma fragments_free lines : forall i n,
  forallb (fun line => negb (existsb (N.eqb 10) line)) lines = true ->
  forallb free_of_LF (fragments lines i n) = true.
Proof.
  induction lines as [|line rest IH]; intros i n H; [reflexivity|].
  simpl in H. apply andb_true_iff in H. destruct H as [Hl Hr].
  rewrite fragments_cons. cbn [forallb free_of_LF]. rewrite Hl.
  rewrite forallb_app, (IH _ _ Hr).
  destruct (Nat.ltb i (n - 1)); reflexivity.
Qed.

(** X9.  The bubble of a message shows its text unchanged: read with
    every [<br />] as a line feed, its children spell the text again; there
    is one [<br />] for each line feed of the text, none after the last
    line; and no piece of text among the children holds a line feed. *)
Theorem bubble_shows_the_text_line_by_line :
  forall msg,
    shown (children msg) = text msg /\
    List.length (filter is_br (children msg))
      = List.length (filter (N.eqb 10) (text msg)) /\
    forallb free_of_LF (children msg) = true.
Proof.
  intros msg. unfold children. cbv zeta.
  change (List.length (split_on 10%N (text msg)))
    with (0 + List.length (split_on 10%N (text msg)))%nat.
  destruct (split_on_cons 10%N (text msg)) as (h & t & E).
  split; [|split].
  - rewrite fragments_shown by (rewrite E; discriminate).
    apply join_split_on.
  - rewrite fragments_brs, split_on_length. simpl. lia.
  - apply fragments_free, split_on_free.
Qed.

(** ** Payloads off the schema *)

(** X10.  A record with numbers in the four [toFixed] fields but without
    [Crop], [Pest_Risk_Score] and [Explanation] does not stop the
    renderer: one message of the bot is appended, in which the gaps are
    shown as [undefined], [NaN%] and [undefined]. *)
Theorem missing_texts_are_shown_as_undefined :
  forall props rec roi yield price profit st,
    get_own props (str "recommendations") = VArr [VObj rec] ->
    get_own rec (str "Estimated_ROI_Percentage") = VNum roi ->
    get_own rec (str "Predicted_Yield") = VNum yield ->
    get_own rec (str "Predicted_Price") = VNum price ->
    get_own rec (str "Estimated_Profit") = VNum profit ->
    get_own rec (str "Crop") = VUndefined ->
    get_own rec (str "Pest_Risk_Score") = VUndefined ->
    get_own rec (str "Explanation") = VUndefined ->
    exists st',
      displayRecommendations (VObj props) st = Normal st' /\
      messages st' =
        messages st
        ++ [ {| sender := bot;
                text := str "Here are the top recommendations:" ++ LF
                        ++ bareBlock 1 roi yield price profit |} ] /\
      inputs st' = inputs st /\
      isVisible st' = isVisible st.
Proof.
  intros props rec roi y p pr st Hget Hroi Hy Hp Hpr Hc Hrisk He.
  exists (setMessages
            (fun prev =>
               prev ++ [ {| sender := bot;
                            text := str "Here are the top recommendations:"
                                    ++ LF ++ bareBlock 1 roi y p pr |} ]) st).
  split; [|split; [|split]]; [|reflexivity..].
  unfold displayRecommendations.
  rewrite (hasRecommendations_array _ _ Hget).
  cbn [bind Get]. rewrite Hget.
  cbn [forEach]. unfold appendRecommendation. cbn [Get bind].
  rewrite Hc, Hroi, Hy, Hp, Hpr, Hrisk, He.
  cbn [ToString ToNumber call_toFixed Nat.leb bind].
  change (toFixed (mul NaN (num_of_Z 100)) 1) with (str "NaN").
  unfold bareBlock.
  change (str "Pest Risk: NaN%")
    with (str "Pest Risk: " ++ str "NaN" ++ str "%").
  change (str ". undefined - ") with (str ". " ++ str "undefined" ++ str " - ").
  change (str "Summary: undefined")
    with (str "Summary: " ++ str "undefined").
  repeat rewrite <- app_assoc. reflexivity.
Qed.

Lemma missing_texts_are_shown_as_undefined_witness :
  exists st',
    displayRecommendations
      (payload (VArr [VObj [ (str "Estimated_ROI_Percentage", VNum sample_pH);
                             (str "Predicted_Yield", VNum sample_moisture);
                             (str "Predicted_Price", VNum sample_temp);
                             (str "Estimated_Profit", VNum sample_rainfall) ]]))
      initial = Normal st' /\
    map (fun m => (sender m, split_on 10%N (text m))) (messages st') =
      [ (bot, [welcome]);
        (bot, [ str "Here are the top recommendations:";
                str "1. undefined - 6.5% ROI";
                indent ++ str "Yield: 40.0 tons | Price: $25.00 | Profit: $100.00";
                indent ++ str "Pest Risk: NaN%";
                indent ++ str "Summary: undefined";
                str ""; str "" ]) ].
Proof.
  destruct (missing_texts_are_shown_as_undefined
              [(str "recommendations",
                VArr [VObj [ (str "Estimated_ROI_Percentage", VNum sample_pH);
                             (str "Predicted_Yield", VNum sample_moisture);
                             (str "Predicted_Price", VNum sample_temp);
                             (str "Estimated_Profit", VNum sample_rainfall) ]])]
              [ (str "Estimated_ROI_Percentage", VNum sample_pH);
                (str "Predicted_Yield", VNum sample_moisture);
                (str "Predicted_Price", VNum sample_temp);
                (str "Estimated_Profit", VNum sample_rainfall) ]
              sample_pH sample_moisture sample_temp sample_rainfall initial
              eq_refl eq_refl eq_refl eq_refl eq_refl eq_refl eq_refl eq_refl)
    as (st' & Hd & Hm & _).
  exists st'. split; [exact Hd|].
  rewrite Hm. vm_compute. reflexivity.
Defined.

(** X11.  When [recommendations] is not an array: a number, a boolean or
    an object without [length] counts as no recommendations, while a
    non-empty string passes the [length > 0] test and makes the renderer
    throw, [forEach] not being a function of strings. *)
Theorem recommendations_that_are_no_array :
  forall props st,
    ((exists x, get_own props (str "recommendations") = VNum x) \/
     (exists b, get_own props (str "recommendations") = VBool b) \/
     (exists ps, get_own props (str "recommendations") = VObj ps /\
                 get_own ps (str "length") = VUndefined) ->
     displayRecommendations (VObj props) st =
       Normal (setMessages (fun prev => prev ++ [noRecommendations]) st))
    /\ (forall c s,
          get_own props (str "recommendations") = VStr (c :: s) ->
          displayRecommendations (VObj props) st =
            Throw (TypeError "data.recommendations.forEach is not a function")).
Proof.
  intros props st. split.
  - intros H. apply displayRecommendations_none.
    unfold hasRecommendations. cbn [ToBoolean Get bind].
    destruct H as [[x H]|[[b H]|(ps & H & Hl)]]; rewrite H.
    + destruct (ToBoolean (VNum x)); reflexivity.
    + destruct b; reflexivity.
    + cbn [ToBoolean Get bind]. rewrite Hl. reflexivity.
  - intros c s H. unfold displayRecommendations, hasRecommendations.
    cbn [ToBoolean Get bind]. rewrite H. cbn [ToBoolean Get].
    change (jsstring_eqb (str "length") (str "length")) with true.
    cbn [bind ToNumber List.length]. rewrite Nat2Z.inj_succ.
    destruct (Z.succ (Z.of_nat (List.length s))) as [|p|p] eqn:E; try lia.
    rewrite num_of_Z_pos. reflexivity.
Qed.

Lemma recommendations_that_are_no_array_witness :
  displayRecommendations (payload (VNum (num_of_Z 3))) initial =
    Normal (setMessages (fun prev => prev ++ [noRecommendations]) initial)
  /\ displayRecommendations (payload (VStr (str "Maize"))) initial =
       Throw (TypeError "data.recommendations.forEach is not a function").
Proof.
  split.
  - apply (proj1 (recommendations_that_are_no_array
                    [(str "recommendations", VNum (num_of_Z 3))] initial)).
    left. eexists. reflexivity.
  - apply (proj2 (recommendations_that_are_no_array
                    [(str "recommendations", VStr (str "Maize"))] initial)
             77%N (str "aize")).
    reflexivity.
Defined.

(** ** The input controls *)

(** X12.  An edit of one input control writes that control's field and
    nothing else: the field becomes absent for an empty text and the
    number [parseFloat] reads otherwise - never absent then - while the
    other three fields, the transcript and the visibility flag stay. *)
Theorem edit_writes_its_own_field :
  forall field targetValue st,
    let st' := dispatch (Change field targetValue) st in
    (forall other,
       fieldValue other st' =
         if field_eqb other field then onChange targetValue
         else fieldValue other st) /\
    messages st' = messages st /\
    isVisible st' = isVisible st /\
    onChange targetValue =
      match targetValue with
      | [] => None
      | _ :: _ => Some (parseFloat targetValue)
      end.
Proof.
  intros field v st st'. subst st'. cbn [dispatch].
  split; [|split; [|split]].
  - intros other. destruct field, other; reflexivity.
  - destruct field; reflexivity.
  - destruct field; reflexivity.
  - destruct v; reflexivity.
Qed.

Lemma offending_includes field st :
  absent_or_NaN (fieldValue field st) = true ->
  existsb absent_or_NaN (inputs st) = true /\
  includes (validationText (offending st)) (shownName field) = true.
Proof.
  destruct st as [v ms a b c d].
  unfold offending, inputs.
  cbn [soilpH soilMoisture temperatureC rainfallMm requiredFields combine
       filter snd existsb].
  destruct field; cbn [fieldValue soilpH soilMoisture temperatureC rainfallMm];
    intros ->;
    destruct (absent_or_NaN a), (absent_or_NaN b), (absent_or_NaN c),
      (absent_or_NaN d);
    try discriminate; split; vm_compute; reflexivity.
Qed.

(** X13.  Once a control has been emptied, or filled with text that
    [parseFloat] reads as NaN, the next click on the send button sends
    nothing and appends one message of the bot that names that control's
    field. *)
Theorem unreadable_input_is_named_on_submit :
  forall field targetValue st,
    absent_or_NaN (onChange targetValue) = true ->
    let st' := dispatch (Change field targetValue) st in
    snd (handleGetRecommendations st') = None /\
    exists m,
      sender m = bot /\
      includes (text m) (shownName field) = true /\
      messages (fst (handleGetRecommendations st')) = messages st ++ [m].
Proof.
  intros field v st H st'.
  assert (Hf : absent_or_NaN (fieldValue field st') = true).
  { subst st'. cbn [dispatch]. destruct field; exact H. }
  destruct (offending_includes field st' Hf) as [He Hi].
  rewrite handleGetRecommendations_cases, He. cbn [fst snd].
  split; [reflexivity|].
  exists {| sender := bot; text := validationText (offending st') |}.
  split; [reflexivity|]. split; [exact Hi|].
  cbn [setMessages messages]. subst st'. cbn [dispatch].
  rewrite messages_setField. reflexivity.
Qed.

Lemma unreadable_input_is_named_on_submit_witness :
  onChange (str "abc") = Some NaN /\
  snd (handleGetRecommendations
         (dispatch (Change Temperature_C (str "abc")) filled_in)) = None.
Proof.
  split; [vm_compute; reflexivity|].
  exact (proj1 (unreadable_input_is_named_on_submit Temperature_C (str "abc")
                  filled_in eq_refl)).
Defined.

(** ** Fixed-point notation *)

Lemma string_of_uint_digits d :
  forallb is_digit (str (NilEmpty.string_of_uint d)) = true.
Proof. induction d; simpl; try rewrite IHd; reflexivity. Qed.

Lemma digits_are_digits z : forallb is_digit (digits z) = true.
Proof.
  unfold digits, NilZero.string_of_uint.
  destruct (N.to_uint (Z.to_N z)); try reflexivity;
    apply string_of_uint_digits.
Qed.

Lemma zeros_are_digits n : forallb is_digit (zeros n) = true.
Proof. induction n; simpl; auto. Qed.

Lemma forallb_firstn_skipn {A} (p : A -> bool) n l :
  forallb p l = true ->
  forallb p (firstn n l) = true /\ forallb p (skipn n l) = true.
Proof.
  intros H. rewrite <- (firstn_skipn n l), forallb_app in H.
  apply andb_true_iff in H. exact H.
Qed.

Lemma toFixed_fixed_decimal x f :
  below_1e21 x = true -> (0 < f <= 100)%nat -> fixed_decimal f (toFixed x f).
Proof.
  intros Hx [Hf _].
  assert (Hf0 : Nat.eqb f 0 = false) by (apply Nat.eqb_neq; lia).
  destruct x as [s|s| |s m e]; try discriminate Hx.
  - exists false, (str "0"), (zeros f). unfold toFixed. rewrite Hf0.
    split; [reflexivity|]. split; [discriminate|]. split; [reflexivity|].
    split; [apply zeros_are_digits|apply repeat_length].
  - unfold toFixed. cbn [below_1e21] in Hx. cbv zeta in Hx.
    set (xp := if 0 <=? e then Z.pos m * 2 ^ e else Z.pos m) in *.
    set (xq := if 0 <=? e then 1 else 2 ^ (- e)) in *.
    replace (xq * 10 ^ 21 <=? xp) with false
      by (symmetry; apply Z.leb_gt, Z.ltb_lt; exact Hx).
    cbv zeta. rewrite Hf0.
    set (m0 := digits ((2 * xp * 10 ^ Z.of_nat f + xq) / (2 * xq))).
    set (m1 := zeros (S f - List.length m0) ++ m0).
    assert (Hk : (S f <= List.length m1)%nat).
    { unfold m1, zeros. rewrite length_app, repeat_length. lia. }
    assert (Hd : forallb is_digit m1 = true).
    { unfold m1, m0. rewrite forallb_app, zeros_are_digits, digits_are_digits.
      reflexivity. }
    destruct (forallb_firstn_skipn is_digit (List.length m1 - f) m1 Hd)
      as [Hd1 Hd2].
    exists s, (firstn (List.length m1 - f) m1), (skipn (List.length m1 - f) m1).
    split; [reflexivity|]. split; [|split; [exact Hd1|split; [exact Hd2|]]].
    + intros E. apply (f_equal (@List.length _)) in E.
      rewrite length_firstn in E. simpl in E. lia.
    + rewrite length_skipn. lia.
Qed.

(** X14.  For a record that follows the schema and whose ROI, yield,
    price and profit are of magnitude below 10^21, the block the renderer
    writes shows the ROI and the yield with exactly one decimal and the
    price and the profit with exactly two: each is an optional minus sign,
    at least one digit, a point and that many digits. *)
Theorem rendered_amounts_have_fixed_decimals :
  forall responseText rec r index,
    conforms rec r ->
    below_1e21 (Estimated_ROI_Percentage r) = true ->
    below_1e21 (Predicted_Yield r) = true ->
    below_1e21 (Predicted_Price r) = true ->
    below_1e21 (Estimated_Profit r) = true ->
    exists roi yield price profit,
      appendRecommendation responseText rec index =
        Normal (responseText
                ++ Number_toString (num_of_Z (Z.of_nat index + 1))
                ++ str ". " ++ Crop r ++ str " - " ++ roi ++ str "% ROI" ++ LF
                ++ indent ++ str "Yield: " ++ yield ++ str " tons | Price: $"
                ++ price ++ str " | Profit: $" ++ profit ++ LF
                ++ indent ++ riskLine r ++ LF
                ++ indent ++ str "Summary: " ++ Explanation r ++ LF ++ LF) /\
      fixed_decimal 1 roi /\ fixed_decimal 1 yield /\
      fixed_decimal 2 price /\ fixed_decimal 2 profit.
Proof.
  intros t rec r i Hc Hroi Hy Hp Hpr.
  exists (toFixed (Estimated_ROI_Percentage r) 1),
    (toFixed (Predicted_Yield r) 1), (toFixed (Predicted_Price r) 2),
    (toFixed (Estimated_Profit r) 2).
  split; [|split; [|split; [|split]]];
    try (apply toFixed_fixed_decimal; [assumption|lia]).
  rewrite (appendRecommendation_conforms _ _ _ _ Hc).
  unfold block, roiLine, yieldLine.
  rewrite Nat2Z.inj_succ. unfold Z.succ.
  repeat rewrite <- app_assoc. reflexivity.
Qed.

Lemma rendered_amounts_have_fixed_decimals_witness :
  exists roi yield price profit,
    appendRecommendation [] (to_value maize) 0 =
      Normal (str "1. Maize - " ++ roi ++ str "% ROI" ++ LF
              ++ indent ++ str "Yield: " ++ yield ++ str " tons | Price: $"
              ++ price ++ str " | Profit: $" ++ profit ++ LF
              ++ indent ++ str "Pest Risk: 20.0%" ++ LF
              ++ indent ++ str "Summary: stable" ++ LF ++ LF) /\
    fixed_decimal 1 roi /\ fixed_decimal 1 yield /\
    fixed_decimal 2 price /\ fixed_decimal 2 profit.
Proof.
  assert (Hc : conforms (to_value maize) maize)
    by (split; [|split; [|split; [|split; [|split; [|split]]]]];
        vm_compute; reflexivity).
  destruct (rendered_amounts_have_fixed_decimals [] (to_value maize) maize 0
              Hc eq_refl eq_refl eq_refl eq_refl)
    as (roi & y & p & pr & H & F).
  exists roi, y, p, pr. split; [|exact F].
  rewrite H.
  replace (riskLine maize) with (str "Pest Risk: 20.0%")
    by (vm_compute; reflexivity).
  replace (Number_toString (num_of_Z (Z.of_nat 0 + 1))) with (str "1")
    by (vm_compute; reflexivity).
  reflexivity.
Defined.
